(** * jurigged: the registry and the import sniffer

    A shallow embedding of [jurigged/register.py]: the [Registry] class
    (precache of source snapshots, lazy cache of [CodeFile] objects, the two
    event channels) and the [ImportSniffer] meta-path finder; and of the
    line padding [_pad] of [jurigged/loop/basic.py].

    Python objects that are mutated in place and compared by identity
    ([CodeFile] instances, [ImportSniffer] instances) live in heaps of the
    [World]; a reference is an index into the heap.  Methods are written in
    a state-and-exception monad [Py]: an exception keeps the state changes
    made before it was raised, as in Python.

    What lies outside [register.py] is taken as follows.  The file system
    is a finite map from the paths that open and decode as text to their
    contents and modification time, and a set of paths that open but hold
    bytes that do not decode: there [f.read()] raises [UnicodeDecodeError];
    on any other path [open] raises [OSError].  A file is not removed
    between [f.read()] and [os.path.getmtime].
    [importlib.util.find_spec] is an
    oracle of the world: for each name, the names it asks the meta path
    about and its outcome, which may be an exception.  [CodeFile] and
    [EventSource] follow the specification; building a [CodeFile] and
    calling an observer return.  Exceptions are instances of [Exception]:
    [KeyboardInterrupt] and the like are not modelled.  A function object
    has a string as [__module__]. *)

From stdpp Require Import base option list gmap strings.
From Stdlib Require Import ZArith.

(** ** Python values *)

(** A module object, as far as [auto_register] looks at it:
    [getattr(module, "__name__", None)] and [getattr(module, "__file__", None)]. *)
Record PyModule := {
  mod_name : option string;
  mod_file : option string;
}.

(** A function object: [fn.__module__], [fn.__code__.co_filename],
    [fn.__code__.co_firstlineno]. *)
Record PyFunction := {
  fn_module : string;
  co_filename : string;
  co_firstlineno : Z;
}.

(** The objects [find_function] may be handed. *)
Inductive PyObject :=
  | VFunction (fn : PyFunction)        (* types.FunctionType: [def], [lambda] *)
  | VBuiltinFunction (name : string)   (* [len], [print], ... *)
  | VClass (name : string)             (* a class is callable *)
  | VBoundMethod (fn : PyFunction)     (* types.MethodType around a function *)
  | VCallableInstance (cls : string)   (* an instance whose class has [__call__] *)
  | VModule (m : PyModule)
  | VInt (z : Z)
  | VStr (s : string)
  | VNone.

(** [isinstance(x, FunctionType)], returning the function it is. *)
Definition as_FunctionType (x : PyObject) : option PyFunction :=
  match x with
  | VFunction fn => Some fn
  | _ => None
  end.

Definition isinstance_FunctionType (x : PyObject) : bool :=
  if as_FunctionType x is Some _ then true else false.

(** Python's [callable(x)]. *)
Definition callable (x : PyObject) : bool :=
  match x with
  | VFunction _ | VBuiltinFunction _ | VClass _
  | VBoundMethod _ | VCallableInstance _ => true
  | VModule _ | VInt _ | VStr _ | VNone => false
  end.

(** Exceptions; every constructor is an instance of [Exception]. *)
Inductive PyException :=
  | OSError (filename : string)         (* [open(filename)] failed *)
  | UnicodeDecodeError (filename : string)
      (* a [ValueError]: [f.read()] could not decode the bytes of [filename] *)
  | ValueError (msg : string)
  | ModuleNotFoundError (msg : string)
  | CallbackError (msg : string).       (* raised by a foreign callback *)

(** How a call ends.  [OutOfFuel] only arises in [find_module], whose
    recursion through the import machinery is bounded by fuel. *)
Inductive Outcome (A : Type) :=
  | Return (a : A)
  | Raise (e : PyException)
  | OutOfFuel.
Arguments Return {A} a.
Arguments Raise {A} e.
Arguments OutOfFuel {A}.

(** ** The import machinery, as the sniffer sees it *)

Inductive Loader :=
  | SourceFileLoader
  | SourcelessFileLoader
  | ExtensionFileLoader
  | BuiltinImporter
  | NoLoader.

Definition isinstance_SourceFileLoader (l : Loader) : bool :=
  match l with
  | SourceFileLoader => true
  | _ => false
  end.

Record ModuleSpec := {
  ms_name : option string;
  ms_origin : option string;
  ms_loader : Loader;
}.

Inductive SpecOutcome :=
  | SpecFound (mspec : ModuleSpec)
  | SpecNone
  | SpecRaises (e : PyException).

(** What one call of [importlib.util.find_spec(name, ...)] does: it asks the
    finders of [sys.meta_path], front to back, about each name of
    [res_queries] (parent packages, then the name itself), and ends in
    [res_outcome]: a spec, [None], or an exception (find_spec raises
    [ModuleNotFoundError] when the parent is not a package and [ValueError]
    when [sys.modules[name].__spec__] is [None]). *)
Record Resolution := {
  res_queries : list string;
  res_outcome : SpecOutcome;
}.

(** ** Event channels *)

Inductive Event :=
  | PrecacheEvent (module_name filename : string)
  | CodeFileEvent (payload : string).

(** Modelled from the spec: [EventSource] of jurigged/utils.py, which is not
    among the sources.  An ordered sequence of registered observers and,
    when history is retained, the ordered history of the emitted events. *)
Record EventSource (L : Type) := {
  listeners : list L;
  history : option (list Event);
}.
Arguments listeners {L} _.
Arguments history {L} _.

Definition EventSource_new {L} (save_history : bool) : EventSource L :=
  {| listeners := []; history := if save_history then Some [] else None |}.

(** The listeners of a [CodeFile]'s channel: foreign observers, and the two
    bound methods [Registry.get] registers. *)
Inductive CfListener :=
  | CfForeign (observer : nat)
  | CfRegistryLog
  | CfRegistryActivityEmit.

(** A structural definition (function or class) found in a file. *)
Definition Defn := string.

(** Modelled from the spec: [CodeFile] of jurigged/codefile.py, which is not
    among the sources.  Built from a file name and a source text, bound to
    the live module by [discover]; it owns a line-to-definition mapping and
    its own channel. *)
Record CodeFile := {
  cf_filename : string;
  cf_source : string;
  cf_module : option PyModule;
  defnmap : gmap Z Defn;
  cf_activity : EventSource CfListener;
}.

(** ** The registry and the sniffer objects *)

Record Registry := {
  (* filename -> (module_name, file_contents, mtime) *)
  precache : gmap string (string * string * Z);
  (* filename -> reference of the CodeFile *)
  cache : gmap string nat;
  precache_activity : EventSource nat;
  activity : EventSource nat;
  _log : option nat;
}.

(** [Registry.__init__] *)
Definition Registry_init : Registry :=
  {| precache := ∅;
     cache := ∅;
     precache_activity := EventSource_new true;
     activity := EventSource_new false;
     _log := None |}.

(** The callback of a sniffer: the closure [prep] that [auto_register]
    builds around its filter, or any other callable, which may raise. *)
Inductive Reporter :=
  | Prep (filter : string → bool)
  | ForeignReport (behaviour : string → string → option PyException).

Record ImportSniffer := {
  working : bool;
  report : Reporter;
}.

(** [ImportSniffer.__init__] *)
Definition ImportSniffer_init (report : Reporter) : ImportSniffer :=
  {| working := false; report := report |}.

(** Calls recorded for counting; the code itself never reads this log. *)
Inductive Call :=
  | CallOpen (filename : string)
  | CallPrepare (module_name filename : string)
  | CallFindSpec (sniffer : nat) (name : string)
  | CallReport (sniffer : nat) (name origin : string).

(** ** The world *)

Record World := {
  (* readable files: contents and modification time *)
  w_files : gmap string (string * Z);
  (* files that open but whose bytes do not decode as text *)
  w_undecodable : gset string;
  (* sys.modules, in insertion order *)
  sys_modules : list (string * PyModule);
  (* importlib.util.find_spec *)
  importlib_find_spec : string → Resolution;
  (* what CodeFile(...).discover(module) finds: the definitions by line and
     the state of the CodeFile's channel afterwards *)
  codefile_discover : string → string → PyModule → gmap Z Defn * EventSource CfListener;
  (* heap of CodeFile objects *)
  w_codefiles : list CodeFile;
  (* heap of ImportSniffer objects *)
  w_sniffers : list ImportSniffer;
  (* sys.meta_path: the installed sniffers, front first; the finders of the
     host itself are behind [importlib_find_spec] *)
  sys_meta_path : list nat;
  (* the module-level [registry] *)
  registry : Registry;
  (* events received by foreign observers and loggers *)
  w_observed : list (nat * Event);
  (* records of the module-level logger [log] *)
  w_logged : list (string * PyException);
  w_calls : list Call;
}.

Definition set_registry (r : Registry) (w : World) : World :=
  {| w_files := w_files w; w_undecodable := w_undecodable w;
     sys_modules := sys_modules w;
     importlib_find_spec := importlib_find_spec w;
     codefile_discover := codefile_discover w;
     w_codefiles := w_codefiles w; w_sniffers := w_sniffers w;
     sys_meta_path := sys_meta_path w; registry := r;
     w_observed := w_observed w; w_logged := w_logged w;
     w_calls := w_calls w |}.

Definition set_codefiles (h : list CodeFile) (w : World) : World :=
  {| w_files := w_files w; w_undecodable := w_undecodable w;
     sys_modules := sys_modules w;
     importlib_find_spec := importlib_find_spec w;
     codefile_discover := codefile_discover w;
     w_codefiles := h; w_sniffers := w_sniffers w;
     sys_meta_path := sys_meta_path w; registry := registry w;
     w_observed := w_observed w; w_logged := w_logged w;
     w_calls := w_calls w |}.

Definition set_sniffers (h : list ImportSniffer) (w : World) : World :=
  {| w_files := w_files w; w_undecodable := w_undecodable w;
     sys_modules := sys_modules w;
     importlib_find_spec := importlib_find_spec w;
     codefile_discover := codefile_discover w;
     w_codefiles := w_codefiles w; w_sniffers := h;
     sys_meta_path := sys_meta_path w; registry := registry w;
     w_observed := w_observed w; w_logged := w_logged w;
     w_calls := w_calls w |}.

Definition set_meta_path (mp : list nat) (w : World) : World :=
  {| w_files := w_files w; w_undecodable := w_undecodable w;
     sys_modules := sys_modules w;
     importlib_find_spec := importlib_find_spec w;
     codefile_discover := codefile_discover w;
     w_codefiles := w_codefiles w; w_sniffers := w_sniffers w;
     sys_meta_path := mp; registry := registry w;
     w_observed := w_observed w; w_logged := w_logged w;
     w_calls := w_calls w |}.

Definition set_observed (o : list (nat * Event)) (w : World) : World :=
  {| w_files := w_files w; w_undecodable := w_undecodable w;
     sys_modules := sys_modules w;
     importlib_find_spec := importlib_find_spec w;
     codefile_discover := codefile_discover w;
     w_codefiles := w_codefiles w; w_sniffers := w_sniffers w;
     sys_meta_path := sys_meta_path w; registry := registry w;
     w_observed := o; w_logged := w_logged w;
     w_calls := w_calls w |}.

Definition set_logged (l : list (string * PyException)) (w : World) : World :=
  {| w_files := w_files w; w_undecodable := w_undecodable w;
     sys_modules := sys_modules w;
     importlib_find_spec := importlib_find_spec w;
     codefile_discover := codefile_discover w;
     w_codefiles := w_codefiles w; w_sniffers := w_sniffers w;
     sys_meta_path := sys_meta_path w; registry := registry w;
     w_observed := w_observed w; w_logged := l;
     w_calls := w_calls w |}.

Definition set_calls (c : list Call) (w : World) : World :=
  {| w_files := w_files w; w_undecodable := w_undecodable w;
     sys_modules := sys_modules w;
     importlib_find_spec := importlib_find_spec w;
     codefile_discover := codefile_discover w;
     w_codefiles := w_codefiles w; w_sniffers := w_sniffers w;
     sys_meta_path := sys_meta_path w; registry := registry w;
     w_observed := w_observed w; w_logged := w_logged w;
     w_calls := c |}.

Definition set_files (f : gmap string (string * Z)) (w : World) : World :=
  {| w_files := f; w_undecodable := w_undecodable w;
     sys_modules := sys_modules w;
     importlib_find_spec := importlib_find_spec w;
     codefile_discover := codefile_discover w;
     w_codefiles := w_codefiles w; w_sniffers := w_sniffers w;
     sys_meta_path := sys_meta_path w; registry := registry w;
     w_observed := w_observed w; w_logged := w_logged w;
     w_calls := w_calls w |}.

Definition set_undecodable (u : gset string) (w : World) : World :=
  {| w_files := w_files w; w_undecodable := u;
     sys_modules := sys_modules w;
     importlib_find_spec := importlib_find_spec w;
     codefile_discover := codefile_discover w;
     w_codefiles := w_codefiles w; w_sniffers := w_sniffers w;
     sys_meta_path := sys_meta_path w; registry := registry w;
     w_observed := w_observed w; w_logged := w_logged w;
     w_calls := w_calls w |}.

Definition set_sys_modules (m : list (string * PyModule)) (w : World) : World :=
  {| w_files := w_files w; w_undecodable := w_undecodable w;
     sys_modules := m;
     importlib_find_spec := importlib_find_spec w;
     codefile_discover := codefile_discover w;
     w_codefiles := w_codefiles w; w_sniffers := w_sniffers w;
     sys_meta_path := sys_meta_path w; registry := registry w;
     w_observed := w_observed w; w_logged := w_logged w;
     w_calls := w_calls w |}.

Definition set_find_spec (f : string → Resolution) (w : World) : World :=
  {| w_files := w_files w; w_undecodable := w_undecodable w;
     sys_modules := sys_modules w;
     importlib_find_spec := f;
     codefile_discover := codefile_discover w;
     w_codefiles := w_codefiles w; w_sniffers := w_sniffers w;
     sys_meta_path := sys_meta_path w; registry := registry w;
     w_observed := w_observed w; w_logged := w_logged w;
     w_calls := w_calls w |}.

(** ** The monad of Python methods *)

Definition Py (A : Type) : Type := World → Outcome A * World.

#[global] Instance Py_ret : MRet Py := λ A a w, (Return a, w).

#[global] Instance Py_bind : MBind Py := λ A B f c w,
  match c w with
  | (Return a, w') => f a w'
  | (Raise e, w') => (Raise e, w')
  | (OutOfFuel, w') => (OutOfFuel, w')
  end.

Definition raise {A} (e : PyException) : Py A := λ w, (Raise e, w).
Definition out_of_fuel {A} : Py A := λ w, (OutOfFuel, w).
Definition read {A} (f : World → A) : Py A := λ w, (Return (f w), w).
Definition modify (f : World → World) : Py unit := λ w, (Return (), f w).

(** [try: body except Exception as exc: handler(exc)] *)
Definition try_except {A} (body : Py A) (handler : PyException → Py A) : Py A :=
  λ w,
  match body w with
  | (Raise e, w') => handler e w'
  | r => r
  end.

(** [for x in l: body(x)] *)
Fixpoint for_each {A} (l : list A) (body : A → Py unit) : Py unit :=
  match l with
  | [] => mret ()
  | x :: l' => body x ;; for_each l' body
  end.

Definition record_call (c : Call) : Py unit :=
  modify (λ w, set_calls (w_calls w ++ [c]) w).

(** [k in d] for a dict [d]. *)
Definition contains {V} (d : gmap string V) (k : string) : bool :=
  if d !! k is Some _ then true else false.

(** [sys.modules.get(name)]; [None] when [name not in sys.modules]. *)
Fixpoint lookup_module (name : string) (mods : list (string * PyModule)) : option PyModule :=
  match mods with
  | [] => None
  | (n, m) :: mods' => if String.eqb n name then Some m else lookup_module name mods'
  end.

(** ** Event channels: register and emit *)

(** A foreign observer is called: the call is recorded. *)
Definition observe (observer : nat) (ev : Event) : Py unit :=
  modify (λ w, set_observed (w_observed w ++ [(observer, ev)]) w).

(** Modelled from the spec: [EventSource.emit] of jurigged/utils.py.  Every
    registered observer is invoked in registration order; the event is
    appended to the history when one is retained. *)
Definition EventSource_emit {L} (call : L → Event → Py unit)
    (es : EventSource L) (ev : Event) : Py (EventSource L) :=
  for_each (listeners es) (λ l, call l ev) ;;
  mret {| listeners := listeners es; history := (λ h, h ++ [ev]) <$> history es |}.

(** Modelled from the spec: [EventSource.register] of jurigged/utils.py.
    The retained history is replayed, in order, to the new observer, which
    is then appended to the observers. *)
Definition EventSource_register {L} (call : L → Event → Py unit)
    (l : L) (es : EventSource L) : Py (EventSource L) :=
  for_each (default [] (history es)) (λ ev, call l ev) ;;
  mret {| listeners := listeners es ++ [l]; history := history es |}.

Definition set_precache_activity (es : EventSource nat) (r : Registry) : Registry :=
  {| precache := precache r; cache := cache r; precache_activity := es;
     activity := activity r; _log := _log r |}.

Definition set_activity (es : EventSource nat) (r : Registry) : Registry :=
  {| precache := precache r; cache := cache r;
     precache_activity := precache_activity r;
     activity := es; _log := _log r |}.

Definition set_precache (p : gmap string (string * string * Z)) (r : Registry) : Registry :=
  {| precache := p; cache := cache r;
     precache_activity := precache_activity r;
     activity := activity r; _log := _log r |}.

Definition set_cache (c : gmap string nat) (r : Registry) : Registry :=
  {| precache := precache r; cache := c;
     precache_activity := precache_activity r;
     activity := activity r; _log := _log r |}.

(** [self.precache_activity.emit(module_name, filename)] *)
Definition precache_activity_emit (ev : Event) : Py unit :=
  r ← read registry;
  es ← EventSource_emit observe (precache_activity r) ev;
  modify (λ w, set_registry (set_precache_activity es (registry w)) w).

(** [self.activity.emit(...)] *)
Definition activity_emit (ev : Event) : Py unit :=
  r ← read registry;
  es ← EventSource_emit observe (activity r) ev;
  modify (λ w, set_registry (set_activity es (registry w)) w).

(** ** Registry *)

(** [Registry.set_logger] *)
Definition set_logger (lg : nat) : Py unit :=
  modify (λ w,
    set_registry
      {| precache := precache (registry w); cache := cache (registry w);
         precache_activity := precache_activity (registry w);
         activity := activity (registry w); _log := Some lg |} w).

(** [Registry.log] *)
Definition Registry_log (ev : Event) : Py unit :=
  r ← read registry;
  match _log r with
  | Some lg => observe lg ev
  | None => mret ()
  end.

(** What reading [filename] as text raises when it cannot be read:
    [f.read()] raises [UnicodeDecodeError] on a file that opens but does not
    decode, and [open] raises [OSError] on a path that does not open. *)
Definition read_error (w : World) (filename : string) : PyException :=
  if decide (filename ∈ w_undecodable w) then UnicodeDecodeError filename
  else OSError filename.

(** [with open(filename) as f: (f.read(), os.path.getmtime(filename))] *)
Definition open_read (filename : string) : Py (string * Z) :=
  record_call (CallOpen filename) ;;
  fs ← read w_files;
  match fs !! filename with
  | Some content => mret content
  | None => w ← read id; raise (read_error w filename)
  end.

(** [Registry.prepare] *)
Definition prepare (module_name filename : string) : Py unit :=
  record_call (CallPrepare module_name filename) ;;
  r ← read registry;
  if negb (contains (precache r) filename) && negb (contains (cache r) filename) then
    '(text, mtime) ← open_read filename;
    modify (λ w,
      set_registry
        (set_precache (<[filename := (module_name, text, mtime)]> (precache (registry w)))
           (registry w)) w) ;;
    precache_activity_emit (PrecacheEvent module_name filename)
  else mret ().

(** A call of a listener of a CodeFile's channel. *)
Definition cf_call (l : CfListener) (ev : Event) : Py unit :=
  match l with
  | CfForeign observer => observe observer ev
  | CfRegistryLog => Registry_log ev
  | CfRegistryActivityEmit => activity_emit ev
  end.

(** Modelled from the spec: [cf = CodeFile(filename, source=cached_source)]
    followed by [cf.discover(module)], of jurigged/codefile.py.  Allocates
    the object and returns its reference. *)
Definition CodeFile_discover (filename source : string) (module : PyModule) : Py nat :=
  d ← read (λ w, codefile_discover w filename source module);
  cf ← read (λ w, length (w_codefiles w));
  modify (λ w,
    set_codefiles
      (w_codefiles w ++
         [ {| cf_filename := filename; cf_source := source;
              cf_module := Some module; defnmap := d.1;
              cf_activity := d.2 |} ]) w) ;;
  mret cf.

(** [cf.activity.register(listener)] *)
Definition cf_activity_register (cf : nat) (l : CfListener) : Py unit :=
  h ← read w_codefiles;
  match h !! cf with
  | None => mret ()
  | Some o =>
    es ← EventSource_register cf_call l (cf_activity o);
    modify (λ w,
      set_codefiles
        (<[cf := {| cf_filename := cf_filename o; cf_source := cf_source o;
                    cf_module := cf_module o; defnmap := defnmap o;
                    cf_activity := es |}]> (w_codefiles w)) w)
  end.

(** [Registry.get] *)
Definition get (filename : string) : Py (option nat) :=
  r ← read registry;
  match cache r !! filename with
  | Some cf => mret (Some cf)
  | None =>
    match precache r !! filename with
    | Some (module_name, cached_source, mtime) =>
      mods ← read sys_modules;
      match lookup_module module_name mods with
      | None => mret None
      | Some module =>
        cf ← CodeFile_discover filename cached_source module;
        cf_activity_register cf CfRegistryLog ;;
        cf_activity_register cf CfRegistryActivityEmit ;;
        modify (λ w,
          set_registry
            (set_cache (<[filename := cf]> (cache (registry w))) (registry w)) w) ;;
        mret (Some cf)
      end
    | None => mret None
    end
  end.

(** [Registry.find] *)
Definition find (filename : string) (lineno : Z) : Py (option nat * option Defn) :=
  cf ← get filename;
  match cf with
  | None => mret (None, None)
  | Some c =>
    h ← read w_codefiles;
    mret (Some c, (h !! c) ≫= (λ o, defnmap o !! lineno))
  end.

(** [Registry.find_function] *)
Definition find_function (fn : PyObject) : Py (option nat * option Defn) :=
  match as_FunctionType fn with
  | None => mret (None, None)
  | Some f =>
    prepare (fn_module f) (co_filename f) ;;
    find (co_filename f) (co_firstlineno f)
  end.

(** ** ImportSniffer *)

(** The closure [prep] of [auto_register]. *)
Definition prep (filter : string → bool) (module_name filename : option string) : Py unit :=
  match filename, module_name with
  | Some f, Some m => if filter f then prepare m f else mret ()
  | _, _ => mret ()
  end.

(** [self.report(name, origin)] *)
Definition call_report (self : nat) (rep : Reporter) (name origin : string) : Py unit :=
  record_call (CallReport self name origin) ;;
  match rep with
  | Prep filter => prep filter (Some name) (Some origin)
  | ForeignReport behaviour =>
    match behaviour name origin with
    | Some e => raise e
    | None => mret ()
    end
  end.

(** [log.error(msg, exc_info=exc)] *)
Definition log_error (msg : string) (exc : PyException) : Py unit :=
  modify (λ w, set_logged (w_logged w ++ [(msg, exc)]) w).

(** [self.working = b] *)
Definition set_working (self : nat) (b : bool) : Py unit :=
  modify (λ w,
    set_sniffers
      (alter (λ s, {| working := b; report := report s |}) self (w_sniffers w)) w).

(** [importlib.util.find_spec(name, path)]: every query of the resolution
    goes through the finders of [sys.meta_path], that is through [hook],
    the [find_module] of each installed sniffer. *)
Definition find_spec (hook : nat → string → option (list string) → Py (option Loader))
    (name : string) (path : option (list string)) : Py (option ModuleSpec) :=
  res ← read (λ w, importlib_find_spec w name);
  for_each (res_queries res) (λ q,
    mp ← read sys_meta_path;
    for_each mp (λ finder, hook finder q path ;; mret ())) ;;
  match res_outcome res with
  | SpecFound mspec => mret (Some mspec)
  | SpecNone => mret None
  | SpecRaises e => raise e
  end.

(** [ImportSniffer.find_module] *)
Fixpoint find_module (fuel : nat) (self : nat) (spec : string)
    (path : option (list string)) : Py (option Loader) :=
  match fuel with
  | O => out_of_fuel
  | S fuel' =>
    this ← read (λ w, w_sniffers w !! self);
    match this with
    | None => mret None
    | Some sn =>
      if negb (working sn) then
        set_working self true ;;
        record_call (CallFindSpec self spec) ;;
        mspec ← find_spec (find_module fuel') spec path;
        match mspec with
        | Some ms =>
          if isinstance_SourceFileLoader (ms_loader ms) then
            match ms_name ms, ms_origin ms with
            | Some name, Some origin =>
              try_except
                (call_report self (report sn) name origin)
                (λ exc, log_error ("jurigged: Error processing spec " +:+ name) exc)
            | _, _ => mret ()
            end
          else mret ()
        | None => mret ()
        end ;;
        set_working self false ;;
        mret None
      else mret None
    end
  end.

(** [sniffer = ImportSniffer(report)] *)
Definition ImportSniffer_new (rep : Reporter) : Py nat :=
  self ← read (λ w, length (w_sniffers w));
  modify (λ w, set_sniffers (w_sniffers w ++ [ImportSniffer_init rep]) w) ;;
  mret self.

(** [ImportSniffer.install] *)
Definition install (self : nat) : Py unit :=
  modify (λ w, set_meta_path (self :: sys_meta_path w) w).

(** [list.remove(x)]: drops the first occurrence. *)
Fixpoint list_remove_first (x : nat) (l : list nat) : option (list nat) :=
  match l with
  | [] => None
  | y :: l' =>
    if Nat.eqb y x then Some l'
    else match list_remove_first x l' with
         | Some r => Some (y :: r)
         | None => None
         end
  end.

(** [ImportSniffer.uninstall] *)
Definition uninstall (self : nat) : Py unit :=
  mp ← read sys_meta_path;
  match list_remove_first self mp with
  | Some mp' => modify (set_meta_path mp')
  | None => raise (ValueError "list.remove(x): x not in list")
  end.

(** [Registry.auto_register] *)
Definition auto_register (filter : string → bool) : Py nat :=
  mods ← read sys_modules;
  for_each mods (λ '(name, module), prep filter (mod_name module) (mod_file module)) ;;
  sniffer ← ImportSniffer_new (Prep filter);
  install sniffer ;;
  mret sniffer.

(** ** Sequences of operations *)

(** The calls the registry and its sniffers receive, and what the rest of
    the process does to the world in between. *)
Inductive Op :=
  | OpPrepare (module_name filename : string)
  | OpGet (filename : string)
  | OpFind (filename : string) (lineno : Z)
  | OpFindFunction (fn : PyObject)
  | OpAutoRegister (filter : string → bool)
  | OpSetLogger (lg : nat)
  | OpRegisterPrecacheObserver (observer : nat)
  | OpRegisterActivityObserver (observer : nat)
  | OpFindModule (fuel : nat) (sniffer : nat) (spec : string) (path : option (list string))
  | OpUninstall (sniffer : nat)
  | EnvLoadModule (name : string) (module : PyModule)
  | EnvUnloadModule (name : string)
  | EnvWriteFile (filename text : string) (mtime : Z)
  | EnvRemoveFile (filename : string)
  | EnvCorruptFile (filename : string)
  | EnvSetFindSpec (f : string → Resolution).

(** [sys.modules[name] = module] *)
Fixpoint store_module (name : string) (module : PyModule)
    (mods : list (string * PyModule)) : list (string * PyModule) :=
  match mods with
  | [] => [(name, module)]
  | (n, m) :: mods' =>
    if String.eqb n name then (n, module) :: mods'
    else (n, m) :: store_module name module mods'
  end.

(** [sys.modules.pop(name, None)] *)
Fixpoint drop_module (name : string) (mods : list (string * PyModule))
    : list (string * PyModule) :=
  match mods with
  | [] => []
  | (n, m) :: mods' =>
    if String.eqb n name then drop_module name mods'
    else (n, m) :: drop_module name mods'
  end.

(** [registry.precache_activity.register(observer)] *)
Definition precache_activity_register (observer : nat) : Py unit :=
  r ← read registry;
  es ← EventSource_register (λ l ev, observe l ev) observer (precache_activity r);
  modify (λ w, set_registry (set_precache_activity es (registry w)) w).

(** [registry.activity.register(observer)] *)
Definition activity_register (observer : nat) : Py unit :=
  r ← read registry;
  es ← EventSource_register (λ l ev, observe l ev) observer (activity r);
  modify (λ w, set_registry (set_activity es (registry w)) w).

(** The world after a call, whatever its outcome. *)
Definition after {A} (c : Py A) (w : World) : World := (c w).2.

Definition run_op (op : Op) (w : World) : World :=
  match op with
  | OpPrepare m f => after (prepare m f) w
  | OpGet f => after (get f) w
  | OpFind f l => after (find f l) w
  | OpFindFunction fn => after (find_function fn) w
  | OpAutoRegister filter => after (auto_register filter) w
  | OpSetLogger lg => after (set_logger lg) w
  | OpRegisterPrecacheObserver o => after (precache_activity_register o) w
  | OpRegisterActivityObserver o => after (activity_register o) w
  | OpFindModule fuel s spec path => after (find_module fuel s spec path) w
  | OpUninstall s => after (uninstall s) w
  | EnvLoadModule n m => set_sys_modules (store_module n m (sys_modules w)) w
  | EnvUnloadModule n => set_sys_modules (drop_module n (sys_modules w)) w
  | EnvWriteFile f text mtime =>
    set_undecodable (w_undecodable w ∖ {[f]})
      (set_files (<[f := (text, mtime)]> (w_files w)) w)
  | EnvRemoveFile f =>
    set_undecodable (w_undecodable w ∖ {[f]}) (set_files (delete f (w_files w)) w)
  | EnvCorruptFile f =>
    set_undecodable (w_undecodable w ∪ {[f]}) (set_files (delete f (w_files w)) w)
  | EnvSetFindSpec f => set_find_spec f w
  end.

Definition run_ops (ops : list Op) (w : World) : World :=
  foldl (λ w op, run_op op w) w ops.

(** The process at start: [registry = Registry()] has just run. *)
Definition World_init (files : gmap string (string * Z))
    (mods : list (string * PyModule))
    (resolve : string → Resolution)
    (discover : string → string → PyModule → gmap Z Defn * EventSource CfListener)
    : World :=
  {| w_files := files; w_undecodable := ∅; sys_modules := mods;
     importlib_find_spec := resolve; codefile_discover := discover;
     w_codefiles := []; w_sniffers := []; sys_meta_path := [];
     registry := Registry_init;
     w_observed := []; w_logged := []; w_calls := [] |}.

(** ** Worlds used to state the effect of a call *)

(** The world once [prepare] has recorded its call and found nothing to do. *)
Definition world_prepare_skipped (module_name filename : string) (w : World) : World :=
  set_calls (w_calls w ++ [CallPrepare module_name filename]) w.

(** The world once [prepare] has recorded its call and failed to read the file. *)
Definition world_prepare_failed (module_name filename : string) (w : World) : World :=
  set_calls (w_calls w ++ [CallPrepare module_name filename; CallOpen filename]) w.

(** The world once [prepare] has read the file, stored the snapshot and
    emitted the precache event. *)
Definition world_prepare_stored (module_name filename text : string) (mtime : Z)
    (w : World) : World :=
  let ev := PrecacheEvent module_name filename in
  let r := registry w in
  set_registry
    {| precache := <[filename := (module_name, text, mtime)]> (precache r);
       cache := cache r;
       precache_activity :=
         {| listeners := listeners (precache_activity r);
            history := (λ h, h ++ [ev]) <$> history (precache_activity r) |};
       activity := activity r;
       _log := _log r |}
    (set_observed
       (w_observed w ++ ((λ l, (l, ev)) <$> listeners (precache_activity r)))
       (set_calls (w_calls w ++ [CallPrepare module_name filename; CallOpen filename]) w)).

(** ** Predicates on worlds and call logs *)

(** [total R c]: the call [c] returns from every world, and relates the
    world before to the world after by [R]. *)
Definition total (R : relation World) {A} (c : Py A) : Prop :=
  ∀ w, ∃ a w', c w = (Return a, w') ∧ R w w'.

(** [respects R c]: however [c] ends, [R] relates the world before to the
    world after. *)
Definition respects (R : relation World) {A} (c : Py A) : Prop :=
  ∀ w, R w (after c w).

(** The two tables of the registry are as they were. *)
Definition same_tables (w w' : World) : Prop :=
  precache (registry w') = precache (registry w)
  ∧ cache (registry w') = cache (registry w).

(** A path is in at most one of the two tables. *)
Definition in_at_most_one_table (filename : string) (w : World) : Prop :=
  ¬ (is_Some (precache (registry w) !! filename)
     ∧ is_Some (cache (registry w) !! filename)).

(** Every cached path still has its precache entry. *)
Definition cache_within_precache (w : World) : Prop :=
  ∀ filename, is_Some (cache (registry w) !! filename) →
              is_Some (precache (registry w) !! filename).

(** From [w] to [w'] no entry of either table is removed or replaced, and
    the cache stays within the precache if it was. *)
Definition tables_grow (w w' : World) : Prop :=
  (∀ filename e, precache (registry w) !! filename = Some e →
                 precache (registry w') !! filename = Some e)
  ∧ (∀ filename cf, cache (registry w) !! filename = Some cf →
                    cache (registry w') !! filename = Some cf)
  ∧ (cache_within_precache w → cache_within_precache w').

Definition is_report_by (self : nat) (c : Call) : bool :=
  match c with
  | CallReport s _ _ => Nat.eqb s self
  | _ => false
  end.

Definition is_report (c : Call) : bool :=
  match c with
  | CallReport _ _ _ => true
  | _ => false
  end.

Definition is_prepare (c : Call) : bool :=
  match c with
  | CallPrepare _ _ => true
  | _ => false
  end.

Definition count_calls (f : Call → bool) (l : list Call) : nat :=
  length (List.filter f l).

(** [self.working], for the sniffer at reference [self]. *)
Definition is_working (self : nat) (w : World) : bool :=
  match w_sniffers w !! self with
  | Some sn => working sn
  | None => false
  end.

(** The calls made from [w] to [w'] satisfy [P]. *)
Definition calls_added (P : list Call → Prop) (w w' : World) : Prop :=
  ∃ new, w_calls w' = w_calls w ++ new ∧ P new.

(** While the flag of [self] is set, it stays set and [self] reports nothing. *)
Definition guarded (self : nat) (w w' : World) : Prop :=
  is_working self w = true →
  is_working self w' = true
  ∧ calls_added (λ new, count_calls (is_report_by self) new = 0%nat) w w'.

(** No more [prepare] calls than reports. *)
Definition prepares_follow_reports (w w' : World) : Prop :=
  calls_added (λ new, count_calls is_prepare new ≤ count_calls is_report new) w w'.

(** The sniffers, the meta path and the import machinery are as they were. *)
Definition same_hooks (w w' : World) : Prop :=
  w_sniffers w' = w_sniffers w
  ∧ sys_meta_path w' = sys_meta_path w
  ∧ importlib_find_spec w' = importlib_find_spec w.

(** The callbacks of the sniffers are as they were. *)
Definition same_reporters (w w' : World) : Prop :=
  report <$> w_sniffers w' = report <$> w_sniffers w.



(** The [if mspec is not None and ...: try: ... except ...] statement of
    [find_module], on its own. *)
Definition report_source_spec (self : nat) (rep : Reporter)
    (mspec : option ModuleSpec) : Py unit :=
  match mspec with
  | Some ms =>
    if isinstance_SourceFileLoader (ms_loader ms) then
      match ms_name ms, ms_origin ms with
      | Some name, Some origin =>
        try_except
          (call_report self rep name origin)
          (λ exc, log_error ("jurigged: Error processing spec " +:+ name) exc)
      | _, _ => mret ()
      end
    else mret ()
  | None => mret ()
  end.

(** The world in which [find_module] of an idle sniffer calls [find_spec]. *)
Definition world_resolving (self : nat) (spec : string) (w : World) : World :=
  set_calls (w_calls w ++ [CallFindSpec self spec])
    (set_sniffers
       (alter (λ s, {| working := true; report := report s |}) self (w_sniffers w)) w).

(** ** Predicates for [auto_register] and for what a call may touch *)

(** [filename] is the file of a loaded module that [auto_register] prepares:
    the module has a name and a file, and the filter accepts the file. *)
Definition wanted (filter : string → bool) (mods : list (string * PyModule))
    (filename : string) : Prop :=
  ∃ name module module_name,
    (name, module) ∈ mods
    ∧ mod_name module = Some module_name
    ∧ mod_file module = Some filename
    ∧ filter filename = true.

(** [filename] is in the precache or in the cache. *)
Definition tracked (filename : string) (w : World) : Prop :=
  is_Some (precache (registry w) !! filename)
  ∨ is_Some (cache (registry w) !! filename).

(** Only the registry, the observers' record and the call log may differ. *)
Definition registry_only (w w' : World) : Prop :=
  w_files w' = w_files w
  ∧ w_undecodable w' = w_undecodable w
  ∧ sys_modules w' = sys_modules w
  ∧ importlib_find_spec w' = importlib_find_spec w
  ∧ codefile_discover w' = codefile_discover w
  ∧ w_codefiles w' = w_codefiles w
  ∧ w_sniffers w' = w_sniffers w
  ∧ sys_meta_path w' = sys_meta_path w
  ∧ w_logged w' = w_logged w.

(** What [find_module] reports of an outcome of [find_spec]: the name and
    the origin of a spec with a [SourceFileLoader], a name and an origin. *)
Definition reportable (outcome : SpecOutcome) : option (string * string) :=
  match outcome with
  | SpecFound ms =>
    if isinstance_SourceFileLoader (ms_loader ms) then
      match ms_name ms, ms_origin ms with
      | Some name, Some origin => Some (name, origin)
      | _, _ => None
      end
    else None
  | _ => None
  end.

(** The parts of a CodeFile that registering a listener leaves alone. *)
Definition cf_static (o : CodeFile) : string * string * option PyModule * gmap Z Defn :=
  (cf_filename o, cf_source o, cf_module o, defnmap o).

(** Nothing but the channels and the receivers of events may differ; the
    CodeFile objects keep their file name, source, module and definitions. *)
Definition channels_only (w w' : World) : Prop :=
  w_files w' = w_files w
  ∧ sys_modules w' = sys_modules w
  ∧ codefile_discover w' = codefile_discover w
  ∧ w_calls w' = w_calls w
  ∧ precache (registry w') = precache (registry w)
  ∧ cache (registry w') = cache (registry w)
  ∧ cf_static <$> w_codefiles w' = cf_static <$> w_codefiles w.

(** The precache and the history of its channel are as they were. *)
Definition same_precache_log (w w' : World) : Prop :=
  precache (registry w') = precache (registry w)
  ∧ history (precache_activity (registry w'))
    = history (precache_activity (registry w)).

(** The retained history of [precache_activity] lists the precache: one
    event per entry, carrying its module name and its path. *)
Definition history_mirrors_precache (w : World) : Prop :=
  ∃ h,
    history (precache_activity (registry w)) = Some h
    ∧ NoDup h
    ∧ ∀ ev, ev ∈ h ↔
        ∃ module_name filename text mtime,
          ev = PrecacheEvent module_name filename
          ∧ precache (registry w) !! filename = Some (module_name, text, mtime).

(** Going from [w] to [w'] keeps [history_mirrors_precache]. *)
Definition keeps_mirror (w w' : World) : Prop :=
  history_mirrors_precache w → history_mirrors_precache w'.

(** ** The header lines of [jurigged/loop/basic.py] *)

(** [s * n] for a string [s] and an integer [n]: empty when [n] is not
    positive. *)
Fixpoint str_repeat (s : string) (n : nat) : string :=
  match n with
  | O => ""
  | S n' => s +:+ str_repeat s n'
  end.

Definition str_mul (s : string) (n : Z) : string := str_repeat s (Z.to_nat n).

(** [BasicDeveloopRunner._pad]; [num] is the text of [self.num], an
    attribute of the base class, as the f-string renders it.  A string is
    its sequence of characters, and [len] their number. *)
Definition _pad (num : string) (text : string) (total : Z) : string :=
  let text := "#" +:+ num +:+ ": " +:+ text in
  let rest := (total - Z.of_nat (String.length text) - 6)%Z in
  "---- " +:+ text +:+ " " +:+ str_mul "-" rest.

(** ** A small process, to run the definitions on *)

Open Scope string_scope.

Definition example_module : PyModule :=
  {| mod_name := Some "app"; mod_file := Some "app.py" |}.

(** One definition on line 1, and a channel that retains its history. *)
Definition example_discover (filename source : string) (module : PyModule)
    : gmap Z Defn * EventSource CfListener :=
  ({[ 1%Z := "main" ]}, EventSource_new true).

(** Every name resolves to the source file [name.py]; the resolution asks
    the chain about the name itself. *)
Definition example_resolve (name : string) : Resolution :=
  {| res_queries := [name];
     res_outcome :=
       SpecFound {| ms_name := Some name; ms_origin := Some (name +:+ ".py");
                    ms_loader := SourceFileLoader |} |}.

(** [app] is loaded from [app.py]; [lib.py] exists, [ghost.py] does not. *)
Definition example_world : World :=
  World_init
    {[ "app.py" := ("def main(): pass", 100%Z); "lib.py" := ("x = 1", 50%Z) ]}
    [("app", example_module)]
    example_resolve example_discover.

Definition example_function : PyFunction :=
  {| fn_module := "app"; co_filename := "app.py"; co_firstlineno := 1 |}.

(** A function whose file [ghost.py] is not on the disk. *)
Definition ghost_function : PyFunction :=
  {| fn_module := "ghost"; co_filename := "ghost.py"; co_firstlineno := 7 |}.

Close Scope string_scope.

Open Scope string_scope.

(** The example process once [auto_register] has installed sniffer [0]. *)
Definition sniffing_world : World :=
  after (auto_register (λ _, true)) example_world.

(** The same with the flag of the sniffer set: inside a resolution. *)
Definition resolving_world : World :=
  after (set_working 0 true) sniffing_world.

(** [auto_register] has been called a second time: sniffers [0] and [1] are
    both on [sys.meta_path], [1] in front. *)
Definition twice_registered_world : World :=
  after (auto_register (λ _, true)) sniffing_world.

(** [sys.modules["__main__"].__spec__] is [None]: [find_spec] raises. *)
Definition raising_resolve (name : string) : Resolution :=
  {| res_queries := [];
     res_outcome := SpecRaises (ValueError "__main__.__spec__ is None") |}.

Definition raising_world : World := set_find_spec raising_resolve sniffing_world.

(** [find_spec] raises for [__main__] and resolves every other name. *)
Definition mixed_resolve (name : string) : Resolution :=
  if String.eqb name "__main__" then raising_resolve name else example_resolve name.

(** Modules [A] (file [a.py]) and [B] (file [b.py]) are loaded, and so is
    a builtin module without a file; [a.py], [b.py] and [c.py] exist. *)
Definition two_modules_world : World :=
  World_init
    {[ "a.py" := ("import b", 1%Z); "b.py" := ("", 2%Z); "c.py" := ("", 3%Z) ]}
    [("sys", {| mod_name := Some "sys"; mod_file := None |});
     ("A", {| mod_name := Some "A"; mod_file := Some "a.py" |});
     ("B", {| mod_name := Some "B"; mod_file := Some "b.py" |})]
    (λ name,
       {| res_queries := ["deps"; name];
          res_outcome :=
            SpecFound {| ms_name := Some name; ms_origin := Some "c.py";
                         ms_loader := SourceFileLoader |} |})
    example_discover.

(** A filter that rejects [b.py]. *)
Definition not_b (filename : string) : bool := negb (String.eqb filename "b.py").

(** A sniffer whose callback raises on every report. *)
Definition failing_callback_world : World :=
  after (install 0)
    (after (ImportSniffer_new (ForeignReport (λ _ _, Some (CallbackError "boom"))))
       example_world).

(** The same where [find_spec] raises for [__main__]. *)
Definition mixed_world : World := set_find_spec mixed_resolve failing_callback_world.

Close Scope string_scope.

Open Scope string_scope.


(** [lib.py] now holds bytes that do not decode as text. *)
Definition undecodable_world : World :=
  run_ops [EnvCorruptFile "lib.py"] example_world.

(** [app.py] is precached, then rewritten on disk. *)
Definition edited_world : World :=
  run_ops [OpPrepare "app" "app.py"; EnvWriteFile "app.py" "def other(): pass" 200]
    example_world.

(** A builtin module: the spec has no source loader. *)
Definition builtin_resolve (name : string) : Resolution :=
  {| res_queries := [name];
     res_outcome :=
       SpecFound {| ms_name := Some name; ms_origin := Some "built-in";
                    ms_loader := BuiltinImporter |} |}.

Close Scope string_scope.

(** * Properties *)

(** ** Running the monad *)

Lemma bind_Return {A B} (c : Py A) (f : A → Py B) w a w' :
  c w = (Return a, w') → (c ≫= f) w = f a w'.
Proof. intros H. unfold mbind, Py_bind. by rewrite H. Qed.

Lemma bind_Raise {A B} (c : Py A) (f : A → Py B) w e w' :
  c w = (Raise e, w') → (c ≫= f) w = (Raise e, w').
Proof. intros H. unfold mbind, Py_bind. by rewrite H. Qed.

Lemma set_observed_id w : set_observed (w_observed w) w = w.
Proof. by destruct w. Qed.

Lemma set_calls_id w : set_calls (w_calls w) w = w.
Proof. by destruct w. Qed.

Lemma for_each_observe (ls : list nat) ev w :
  for_each ls (λ l, observe l ev) w
  = (Return (), set_observed (w_observed w ++ ((λ l, (l, ev)) <$> ls)) w).
Proof.
  revert w. induction ls as [|l ls IH]; intros w; simpl.
  - rewrite app_nil_r, set_observed_id. reflexivity.
  - unfold mbind, Py_bind, observe at 1, modify. rewrite IH. simpl.
    by rewrite <- app_assoc.
Qed.

(** ** [prepare], case by case *)

Lemma prepare_present module_name filename w :
  contains (precache (registry w)) filename = true
  ∨ contains (cache (registry w)) filename = true →
  prepare module_name filename w
  = (Return (), world_prepare_skipped module_name filename w).
Proof.
  intros H. unfold prepare, mbind, Py_bind, record_call, modify, read. simpl.
  destruct H as [-> | ->]; simpl; [done|].
  by rewrite andb_false_r.
Qed.

Lemma prepare_unreadable module_name filename w :
  contains (precache (registry w)) filename = false →
  contains (cache (registry w)) filename = false →
  w_files w !! filename = None →
  prepare module_name filename w
  = (Raise (read_error w filename), world_prepare_failed module_name filename w).
Proof.
  intros Hp Hc Hf.
  unfold prepare, open_read, mbind, Py_bind, record_call, modify, read, raise. simpl.
  rewrite Hp, Hc. simpl. rewrite Hf. simpl.
  unfold world_prepare_failed, read_error. simpl. by rewrite <- app_assoc.
Qed.

Lemma prepare_readable module_name filename text mtime w :
  contains (precache (registry w)) filename = false →
  contains (cache (registry w)) filename = false →
  w_files w !! filename = Some (text, mtime) →
  prepare module_name filename w
  = (Return (), world_prepare_stored module_name filename text mtime w).
Proof.
  intros Hp Hc Hf.
  unfold prepare, open_read, precache_activity_emit, EventSource_emit.
  unfold mbind, Py_bind, record_call, modify, read, raise. simpl.
  rewrite Hp, Hc. simpl. rewrite Hf. simpl.
  rewrite for_each_observe. simpl.
  unfold world_prepare_stored. simpl. by rewrite <- app_assoc.
Qed.

(** ** Calls that always return, and what they leave alone *)

Section combinators.
Context (R : relation World) `{!PreOrder R}.

Lemma total_mret {A} (a : A) : total R (mret a).
Proof. intros w. by exists a, w. Qed.

Lemma total_read {A} (f : World → A) : total R (read f).
Proof. intros w. by exists (f w), w. Qed.

Lemma total_modify (f : World → World) :
  (∀ w, R w (f w)) → total R (modify f).
Proof. intros H w. exists (), (f w). split; [done | apply H]. Qed.

Lemma total_bind {A B} (c : Py A) (f : A → Py B) :
  total R c → (∀ a, total R (f a)) → total R (c ≫= f).
Proof.
  intros Hc Hf w.
  destruct (Hc w) as (a & w1 & E1 & R1).
  destruct (Hf a w1) as (b & w2 & E2 & R2).
  exists b, w2. split; [| by etrans].
  by rewrite (bind_Return _ _ _ _ _ E1).
Qed.

Lemma total_for_each {A} (l : list A) (body : A → Py unit) :
  (∀ x, total R (body x)) → total R (for_each l body).
Proof.
  intros Hb. induction l as [|x l IH]; simpl.
  - apply total_mret.
  - apply total_bind; [apply Hb | intros _; apply IH].
Qed.

Lemma total_respects {A} (c : Py A) : total R c → respects R c.
Proof.
  intros Hc w. destruct (Hc w) as (a & w1 & E & HR).
  unfold after. by rewrite E.
Qed.

Lemma respects_mret {A} (a : A) : respects R (mret a).
Proof. apply total_respects, total_mret. Qed.

Lemma respects_read {A} (f : World → A) : respects R (read f).
Proof. apply total_respects, total_read. Qed.

Lemma respects_modify (f : World → World) :
  (∀ w, R w (f w)) → respects R (modify f).
Proof. intros H. by apply total_respects, total_modify. Qed.

Lemma respects_raise {A} e : respects R (@raise A e).
Proof. intros w. unfold after, raise. simpl. reflexivity. Qed.

Lemma respects_out_of_fuel {A} : respects R (@out_of_fuel A).
Proof. intros w. unfold after, out_of_fuel. simpl. reflexivity. Qed.

Lemma respects_bind {A B} (c : Py A) (f : A → Py B) :
  respects R c → (∀ a, respects R (f a)) → respects R (c ≫= f).
Proof.
  intros Hc Hf w. specialize (Hc w).
  unfold after, mbind, Py_bind in *.
  destruct (c w) as [[a|e|] w1]; simpl in *; [| done | done].
  etrans; [exact Hc | apply Hf].
Qed.

Lemma respects_try_except {A} (body : Py A) (handler : PyException → Py A) :
  respects R body → (∀ e, respects R (handler e)) →
  respects R (try_except body handler).
Proof.
  intros Hb Hh w. specialize (Hb w).
  unfold after, try_except in *.
  destruct (body w) as [[a|e|] w1]; simpl in *; [done | | done].
  etrans; [exact Hb | apply Hh].
Qed.

Lemma respects_for_each {A} (l : list A) (body : A → Py unit) :
  (∀ x, respects R (body x)) → respects R (for_each l body).
Proof.
  intros Hb. induction l as [|x l IH]; simpl.
  - apply respects_mret.
  - apply respects_bind; [apply Hb | intros _; apply IH].
Qed.
End combinators.

#[global] Instance same_tables_preorder : PreOrder same_tables.
Proof.
  split.
  - by intros w.
  - intros w1 w2 w3 [H1 H2] [H3 H4]. split; congruence.
Qed.

Lemma observe_total observer ev : total same_tables (observe observer ev).
Proof. by apply (total_modify same_tables). Qed.

Lemma Registry_log_total ev : total same_tables (Registry_log ev).
Proof.
  apply (total_bind same_tables); [apply (total_read same_tables) |].
  intros r. destruct (_log r).
  - apply observe_total.
  - apply (total_mret same_tables).
Qed.

Lemma activity_emit_total ev : total same_tables (activity_emit ev).
Proof.
  apply (total_bind same_tables); [apply (total_read same_tables) | intros r].
  apply (total_bind same_tables); [| intros es; by apply (total_modify same_tables)].
  apply (total_bind same_tables); [| intros _; apply (total_mret same_tables)].
  apply (total_for_each same_tables); [intros l; apply observe_total].
Qed.

Lemma cf_call_total l ev : total same_tables (cf_call l ev).
Proof.
  destruct l; simpl.
  - apply observe_total.
  - apply Registry_log_total.
  - apply activity_emit_total.
Qed.

Lemma cf_activity_register_total cf l :
  total same_tables (cf_activity_register cf l).
Proof.
  apply (total_bind same_tables); [apply (total_read same_tables) | intros h].
  destruct (h !! cf) as [o|]; [| apply (total_mret same_tables)].
  apply (total_bind same_tables); [| intros es; by apply (total_modify same_tables)].
  apply (total_bind same_tables); [| intros _; apply (total_mret same_tables)].
  apply (total_for_each same_tables); [intros ev; apply cf_call_total].
Qed.

(** ** [get], case by case *)

Lemma get_cached filename cf w :
  cache (registry w) !! filename = Some cf →
  get filename w = (Return (Some cf), w).
Proof.
  intros H. unfold get, mbind, Py_bind, read. simpl. by rewrite H.
Qed.

Lemma get_unknown filename w :
  cache (registry w) !! filename = None →
  precache (registry w) !! filename = None →
  get filename w = (Return None, w).
Proof.
  intros Hc Hp. unfold get, mbind, Py_bind, read. simpl. by rewrite Hc, Hp.
Qed.

Lemma get_stale filename module_name source mtime w :
  cache (registry w) !! filename = None →
  precache (registry w) !! filename = Some (module_name, source, mtime) →
  lookup_module module_name (sys_modules w) = None →
  get filename w = (Return None, w).
Proof.
  intros Hc Hp Hm. unfold get, mbind, Py_bind, read. simpl.
  by rewrite Hc, Hp, Hm.
Qed.

Lemma get_promotes filename module_name source mtime module w :
  cache (registry w) !! filename = None →
  precache (registry w) !! filename = Some (module_name, source, mtime) →
  lookup_module module_name (sys_modules w) = Some module →
  ∃ w', get filename w = (Return (Some (length (w_codefiles w))), w')
        ∧ precache (registry w') = precache (registry w)
        ∧ cache (registry w')
          = <[filename := length (w_codefiles w)]> (cache (registry w)).
Proof.
  intros Hc Hp Hm. unfold get.
  erewrite bind_Return by reflexivity. rewrite Hc, Hp.
  erewrite bind_Return by reflexivity. rewrite Hm.
  erewrite bind_Return by reflexivity.
  match goal with
  | |- context [cf_activity_register ?c CfRegistryLog ;; _] =>
    match goal with
    | |- ∃ _, (_ ≫= _) ?w1 = _ ∧ _ =>
      destruct (cf_activity_register_total c CfRegistryLog w1)
        as (u1 & w2 & E1 & [P1 C1]);
      destruct (cf_activity_register_total c CfRegistryActivityEmit w2)
        as (u2 & w3 & E2 & [P2 C2])
    end
  end.
  erewrite bind_Return by exact E1.
  erewrite bind_Return by exact E2.
  erewrite bind_Return by reflexivity.
  eexists. split; [reflexivity |].
  simpl in *. split; [congruence |]. by rewrite C2, C1.
Qed.

Lemma get_total filename w : ∃ r w', get filename w = (Return r, w').
Proof.
  destruct (cache (registry w) !! filename) as [cf|] eqn:Hc.
  { eexists _, _. by apply get_cached. }
  destruct (precache (registry w) !! filename) as [[[m src] mt]|] eqn:Hp.
  2: { eexists _, _. by apply get_unknown. }
  destruct (lookup_module m (sys_modules w)) as [module|] eqn:Hm.
  2: { eexists _, _. by eapply get_stale. }
  destruct (get_promotes _ _ _ _ _ _ Hc Hp Hm) as (w' & E & _).
  by eexists _, _.
Qed.

(** ** [find] and [find_function] *)

Lemma find_absent filename lineno w w' :
  get filename w = (Return None, w') →
  find filename lineno w = (Return (None, None), w').
Proof. intros H. unfold find. by erewrite bind_Return by exact H. Qed.

Lemma find_present filename lineno cf w w' :
  get filename w = (Return (Some cf), w') →
  find filename lineno w
  = (Return (Some cf, w_codefiles w' !! cf ≫= λ o, defnmap o !! lineno), w').
Proof. intros H. unfold find. by erewrite bind_Return by exact H. Qed.

Lemma find_total filename lineno w :
  ∃ r w', find filename lineno w = (Return r, w').
Proof.
  destruct (get_total filename w) as ([cf|] & w' & E).
  - eexists _, _. by apply find_present.
  - eexists _, _. by apply find_absent.
Qed.

Lemma find_function_not_function x w :
  as_FunctionType x = None →
  find_function x w = (Return (None, None), w).
Proof. intros H. unfold find_function. by rewrite H. Qed.

Lemma contains_false {V} (d : gmap string V) k :
  contains d k = false ↔ d !! k = None.
Proof. unfold contains. by destruct (d !! k). Qed.

Lemma contains_true {V} (d : gmap string V) k :
  contains d k = true ↔ is_Some (d !! k).
Proof.
  unfold contains. destruct (d !! k); split; done.
Qed.

Lemma tracked_contains filename w :
  tracked filename w
  ↔ contains (precache (registry w)) filename = true
    ∨ contains (cache (registry w)) filename = true.
Proof. unfold tracked. by rewrite !contains_true. Qed.

Lemma untracked_contains filename w :
  ¬ tracked filename w
  ↔ contains (precache (registry w)) filename = false
    ∧ contains (cache (registry w)) filename = false.
Proof.
  rewrite tracked_contains.
  destruct (contains (precache (registry w)) filename),
    (contains (cache (registry w)) filename); intuition congruence.
Qed.

(** [prepare] returns when the path is tracked or can be read. *)
Lemma prepare_returns module_name filename w :
  tracked filename w ∨ is_Some (w_files w !! filename) →
  ∃ w', prepare module_name filename w = (Return (), w').
Proof.
  intros H.
  destruct (contains (precache (registry w)) filename) eqn:Hp.
  { eexists. apply prepare_present. by left. }
  destruct (contains (cache (registry w)) filename) eqn:Hc.
  { eexists. apply prepare_present. by right. }
  destruct H as [H | [[text mtime] Hf]].
  - apply tracked_contains in H as [H | H]; congruence.
  - eexists. by apply prepare_readable.
Qed.

(** [prepare] raises the error of the file read, and has stored nothing,
    when the path is tracked nowhere and cannot be read. *)
Lemma prepare_raises module_name filename w :
  ¬ tracked filename w →
  w_files w !! filename = None →
  prepare module_name filename w
  = (Raise (read_error w filename), world_prepare_failed module_name filename w).
Proof.
  intros [Hp Hc]%untracked_contains Hf. by apply prepare_unreadable.
Qed.

(** C2: [get] and [find] return from every world, whatever the path and
    the line.  [prepare] returns when the path is in a table or can be
    read; for a path in neither table that cannot be read it raises the
    error of the file read ([OSError] from [open], [UnicodeDecodeError]
    from [f.read()]), having recorded the attempt and stored nothing.
    [find_function] returns [(None, None)] for what is not a function; for
    a function it returns a pair when [prepare] returns, and when the file
    read of [prepare] fails it ends in that very exception, in the world
    [prepare] left: the failure reaches the caller unmasked. *)
Theorem C2_lookups_are_total (w : World) :
  (∀ filename, ∃ r w', get filename w = (Return r, w'))
  ∧ (∀ filename lineno, ∃ r w', find filename lineno w = (Return r, w'))
  ∧ (∀ module_name filename,
       (tracked filename w ∨ is_Some (w_files w !! filename) →
        ∃ w', prepare module_name filename w = (Return (), w'))
       ∧ (¬ tracked filename w → w_files w !! filename = None →
          prepare module_name filename w
          = (Raise (read_error w filename),
             world_prepare_failed module_name filename w)))
  ∧ (∀ fn, as_FunctionType fn = None →
       find_function fn w = (Return (None, None), w))
  ∧ (∀ fn f, as_FunctionType fn = Some f →
       (tracked (co_filename f) w ∨ is_Some (w_files w !! co_filename f) →
        ∃ r w', find_function fn w = (Return r, w'))
       ∧ (¬ tracked (co_filename f) w → w_files w !! co_filename f = None →
          find_function fn w
          = (Raise (read_error w (co_filename f)),
             world_prepare_failed (fn_module f) (co_filename f) w))).
Proof.
  split; [intros; apply get_total |].
  split; [intros; apply find_total |].
  split.
  { intros module_name filename. split.
    - apply prepare_returns.
    - apply prepare_raises. }
  split; [intros fn; apply find_function_not_function |].
  intros fn f Hfn. split.
  - intros H.
    destruct (prepare_returns (fn_module f) (co_filename f) w H) as [w1 E].
    destruct (find_total (co_filename f) (co_firstlineno f) w1) as (r & w2 & E2).
    exists r, w2. unfold find_function. rewrite Hfn.
    by erewrite bind_Return by exact E.
  - intros Hn Hf. unfold find_function. rewrite Hfn.
    by erewrite bind_Raise by (by apply prepare_raises).
Qed.

Lemma C2_lookups_are_total_witness :
  as_FunctionType (VFunction ghost_function) = Some ghost_function
  ∧ ¬ tracked "ghost.py" example_world
  ∧ w_files example_world !! "ghost.py"%string = None
  ∧ find_function (VFunction ghost_function) example_world
    = (Raise (OSError "ghost.py"),
       world_prepare_failed "ghost" "ghost.py" example_world).
Proof.
  assert (Hn : ¬ tracked "ghost.py" example_world).
  { intros [[x H] | [x H]]; vm_compute in H; discriminate. }
  split; [reflexivity |].
  split; [exact Hn |].
  split; [vm_compute; reflexivity |].
  destruct (C2_lookups_are_total example_world) as (_ & _ & _ & _ & H).
  destruct (H (VFunction ghost_function) ghost_function eq_refl) as [_ H2].
  apply (H2 Hn). vm_compute. reflexivity.
Defined.

(** A file that opens but does not decode: [f.read()] raises
    [UnicodeDecodeError], which leaves [prepare] as it is, and nothing is
    stored. *)
Example prepare_undecodable_file :
  prepare "lib" "lib.py" undecodable_world
  = (Raise (UnicodeDecodeError "lib.py"),
     world_prepare_failed "lib" "lib.py" undecodable_world)
  ∧ precache (registry (after (prepare "lib" "lib.py") undecodable_world)) = ∅.
Proof. split; vm_compute; reflexivity. Qed.

(** C9: handed an object that is not callable, [find_function] returns
    [(None, None)] and the world is as before: both tables, both channels,
    no file opened, no event delivered. *)
Theorem C9_find_function_non_callable (x : PyObject) (w : World) :
  callable x = false →
  find_function x w = (Return (None, None), w).
Proof.
  intros H. apply find_function_not_function. by destruct x.
Qed.

Lemma C9_find_function_non_callable_witness :
  callable (VInt 3) = false
  ∧ find_function (VInt 3) example_world = (Return (None, None), example_world).
Proof.
  split; [reflexivity |].
  apply (C9_find_function_non_callable (VInt 3) example_world). reflexivity.
Defined.

(** C10: the guard of [find_function] is [isinstance(fn, FunctionType)]:
    whatever is not a plain function object gets [(None, None)] and leaves
    the world as it was, and builtin functions, classes, bound methods and
    instances with [__call__] are callable objects of that kind. *)
Theorem C10_find_function_guard_is_by_type :
  (∀ x w, isinstance_FunctionType x = false →
          find_function x w = (Return (None, None), w))
  ∧ (∀ name fn cls,
       Forall (λ x, callable x = true ∧ isinstance_FunctionType x = false)
         [VBuiltinFunction name; VClass name; VBoundMethod fn;
          VCallableInstance cls]).
Proof.
  split.
  - intros x w H. apply find_function_not_function.
    unfold isinstance_FunctionType in H. by destruct (as_FunctionType x).
  - intros. repeat constructor.
Qed.

Lemma C10_find_function_guard_is_by_type_witness :
  callable (VBuiltinFunction "len") = true
  ∧ find_function (VBuiltinFunction "len") example_world
    = (Return (None, None), example_world).
Proof.
  split; [reflexivity |].
  apply (proj1 C10_find_function_guard_is_by_type
           (VBuiltinFunction "len") example_world).
  reflexivity.
Defined.

Lemma lookup_drop_module name mods :
  lookup_module name (drop_module name mods) = None.
Proof.
  induction mods as [|[n m] mods IH]; simpl; [done|].
  destruct (String.eqb n name) eqn:E; [done|].
  simpl. by rewrite E.
Qed.

(** Once [prepare] has returned, the path is in one of the tables. *)
Lemma prepare_returns_tracked module_name filename w w1 :
  prepare module_name filename w = (Return (), w1) →
  contains (precache (registry w1)) filename = true
  ∨ contains (cache (registry w1)) filename = true.
Proof.
  intros E.
  destruct (contains (precache (registry w)) filename) eqn:Hp.
  { rewrite prepare_present in E by (by left).
    injection E as <-. by left. }
  destruct (contains (cache (registry w)) filename) eqn:Hc.
  { rewrite prepare_present in E by (by right).
    injection E as <-. by right. }
  destruct (w_files w !! filename) as [[text mtime]|] eqn:Hf.
  - rewrite (prepare_readable _ _ text mtime) in E by done.
    injection E as <-. left. simpl.
    apply contains_true. rewrite lookup_insert_eq. by eexists.
  - rewrite prepare_unreadable in E by done. discriminate.
Qed.

(** C6: [prepare] on a path that is in the precache or in the cache stores
    nothing, delivers nothing and opens no file; on a path in neither table
    whose file is readable it stores the snapshot read from disk and emits
    one precache event, delivered once to each observer; and a second
    [prepare] of the same path, under any module name, is of the first
    kind. *)
Theorem C6_prepare_is_idempotent (w : World) (module_name filename : string) :
  (contains (precache (registry w)) filename = true
   ∨ contains (cache (registry w)) filename = true →
   ∃ w', prepare module_name filename w = (Return (), w')
         ∧ registry w' = registry w
         ∧ w_observed w' = w_observed w
         ∧ w_calls w' = w_calls w ++ [CallPrepare module_name filename])
  ∧ (∀ text mtime,
       contains (precache (registry w)) filename = false →
       contains (cache (registry w)) filename = false →
       w_files w !! filename = Some (text, mtime) →
       ∃ w', prepare module_name filename w = (Return (), w')
             ∧ precache (registry w')
               = <[filename := (module_name, text, mtime)]> (precache (registry w))
             ∧ cache (registry w') = cache (registry w)
             ∧ history (precache_activity (registry w'))
               = (λ h, h ++ [PrecacheEvent module_name filename])
                 <$> history (precache_activity (registry w))
             ∧ w_observed w'
               = w_observed w
                 ++ ((λ l, (l, PrecacheEvent module_name filename))
                       <$> listeners (precache_activity (registry w)))
             ∧ w_calls w'
               = w_calls w ++ [CallPrepare module_name filename; CallOpen filename])
  ∧ (∀ w1 module_name',
       prepare module_name filename w = (Return (), w1) →
       ∃ w2, prepare module_name' filename w1 = (Return (), w2)
             ∧ registry w2 = registry w1
             ∧ w_observed w2 = w_observed w1
             ∧ w_calls w2 = w_calls w1 ++ [CallPrepare module_name' filename]).
Proof.
  split; [| split].
  - intros H. eexists. split; [by apply prepare_present | done].
  - intros text mtime Hp Hc Hf. eexists.
    split; [by apply prepare_readable | done].
  - intros w1 m' E. apply prepare_returns_tracked in E.
    eexists. split; [by apply prepare_present | done].
Qed.

Lemma C6_prepare_is_idempotent_witness :
  ∃ w2,
    prepare "other" "lib.py" (after (prepare "lib" "lib.py") example_world)
    = (Return (), w2)
    ∧ registry w2 = registry (after (prepare "lib" "lib.py") example_world)
    ∧ w_observed w2 = w_observed (after (prepare "lib" "lib.py") example_world)
    ∧ w_calls w2
      = w_calls (after (prepare "lib" "lib.py") example_world)
        ++ [CallPrepare "other" "lib.py"].
Proof.
  apply (proj2 (proj2 (C6_prepare_is_idempotent example_world "lib" "lib.py"))).
  vm_compute. reflexivity.
Defined.

(** C7: when the precache holds an entry for a path that is not in the
    cache and the module named by the entry is not in [sys.modules], [get]
    returns [None] and the world is as before: nothing is built and neither
    table changes.  That is the case after a [prepare] that stored the
    entry, once the module has been unloaded. *)
Theorem C7_get_of_unloaded_module_is_absent :
  (∀ w filename module_name source mtime,
     cache (registry w) !! filename = None →
     precache (registry w) !! filename = Some (module_name, source, mtime) →
     lookup_module module_name (sys_modules w) = None →
     get filename w = (Return None, w))
  ∧ (∀ w module_name filename w1,
       contains (precache (registry w)) filename = false →
       contains (cache (registry w)) filename = false →
       prepare module_name filename w = (Return (), w1) →
       get filename (run_op (EnvUnloadModule module_name) w1)
       = (Return None, run_op (EnvUnloadModule module_name) w1)).
Proof.
  split.
  - intros. by eapply get_stale.
  - intros w m p w1 Hp Hc E.
    destruct (w_files w !! p) as [[text mtime]|] eqn:Hf.
    2: { rewrite prepare_unreadable in E by done. discriminate. }
    rewrite (prepare_readable _ _ text mtime) in E by done.
    injection E as <-.
    apply (get_stale p m text mtime); simpl.
    + by apply contains_false.
    + by rewrite lookup_insert_eq.
    + apply lookup_drop_module.
Qed.

Lemma C7_get_of_unloaded_module_is_absent_witness :
  get "app.py"
    (run_op (EnvUnloadModule "app") (after (prepare "app" "app.py") example_world))
  = (Return None,
     run_op (EnvUnloadModule "app") (after (prepare "app" "app.py") example_world)).
Proof.
  apply (proj2 C7_get_of_unloaded_module_is_absent example_world "app" "app.py");
    vm_compute; reflexivity.
Defined.

(** C8: for a path in neither table, [get] returns [None] and [find]
    returns [(None, None)], whatever the line; when [get] returns a
    CodeFile whose [defnmap] has nothing at the line, [find] returns that
    CodeFile and [None].  Both return; neither raises. *)
Theorem C8_find_unknown_path_or_unbound_line :
  (∀ w filename lineno,
     precache (registry w) !! filename = None →
     cache (registry w) !! filename = None →
     get filename w = (Return None, w)
     ∧ find filename lineno w = (Return (None, None), w))
  ∧ (∀ w filename lineno cf w',
       get filename w = (Return (Some cf), w') →
       (∀ o, w_codefiles w' !! cf = Some o → defnmap o !! lineno = None) →
       find filename lineno w = (Return (Some cf, None), w')).
Proof.
  split.
  - intros w p l Hp Hc.
    pose proof (get_unknown p w Hc Hp) as E.
    split; [done | by apply find_absent].
  - intros w p l cf w' E H.
    rewrite (find_present _ _ _ _ _ E).
    destruct (w_codefiles w' !! cf) as [o|] eqn:Ho; simpl; [| done].
    by rewrite (H o).
Qed.

Lemma C8_find_unknown_path_or_unbound_line_witness :
  (get "ghost.py" example_world = (Return None, example_world)
   ∧ find "ghost.py" 7 example_world = (Return (None, None), example_world))
  ∧ find "app.py" 2 (after (prepare "app" "app.py") example_world)
    = (Return (Some 0%nat, None),
       after (get "app.py") (after (prepare "app" "app.py") example_world)).
Proof.
  split.
  - apply (proj1 C8_find_unknown_path_or_unbound_line example_world "ghost.py" 7%Z);
      reflexivity.
  - apply (proj2 C8_find_unknown_path_or_unbound_line
             (after (prepare "app" "app.py") example_world) "app.py" 2%Z 0%nat).
    + vm_compute. reflexivity.
    + intros o Ho. vm_compute in Ho. injection Ho as <-. reflexivity.
Defined.

(** ** The tables only grow *)

#[global] Instance tables_grow_preorder : PreOrder tables_grow.
Proof.
  split.
  - by intros w.
  - intros w1 w2 w3 (P1 & C1 & I1) (P2 & C2 & I2). repeat split; auto.
Qed.

Lemma same_tables_grow w w' : same_tables w w' → tables_grow w w'.
Proof.
  intros [P C]. unfold tables_grow, cache_within_precache.
  rewrite P, C. auto.
Qed.

Lemma respects_weaken (R R' : relation World) {A} (c : Py A) :
  (∀ w w', R w w' → R' w w') → respects R c → respects R' c.
Proof. intros H Hc w. apply H, Hc. Qed.

Lemma total_grow {A} (c : Py A) : total same_tables c → respects tables_grow c.
Proof.
  intros H. apply (respects_weaken same_tables); [apply same_tables_grow |].
  by apply (total_respects same_tables).
Qed.

Lemma modify_grow (f : World → World) :
  (∀ w, registry (f w) = registry w) → respects tables_grow (modify f).
Proof.
  intros H. apply total_grow, (total_modify same_tables).
  intros w. unfold same_tables. by rewrite H.
Qed.

Lemma prepare_grow module_name filename :
  respects tables_grow (prepare module_name filename).
Proof.
  intros w. unfold after.
  destruct (contains (precache (registry w)) filename) eqn:Hp.
  { rewrite prepare_present by (by left). by apply same_tables_grow. }
  destruct (contains (cache (registry w)) filename) eqn:Hc.
  { rewrite prepare_present by (by right). by apply same_tables_grow. }
  destruct (w_files w !! filename) as [[text mtime]|] eqn:Hf.
  2: { rewrite prepare_unreadable by done. by apply same_tables_grow. }
  rewrite (prepare_readable _ _ text mtime) by done.
  apply contains_false in Hp.
  unfold tables_grow, cache_within_precache. simpl. repeat split.
  - intros p e He. rewrite lookup_insert_ne; [done | congruence].
  - done.
  - intros I p Hcp. apply lookup_insert_is_Some'. right. by apply I.
Qed.

Lemma get_grow filename : respects tables_grow (get filename).
Proof.
  intros w. unfold after.
  destruct (cache (registry w) !! filename) as [cf|] eqn:Hc.
  { by rewrite (get_cached _ cf). }
  destruct (precache (registry w) !! filename) as [[[m src] mt]|] eqn:Hp.
  2: { by rewrite get_unknown. }
  destruct (lookup_module m (sys_modules w)) as [module|] eqn:Hm.
  2: { by rewrite (get_stale _ m src mt). }
  destruct (get_promotes _ _ _ _ _ _ Hc Hp Hm) as (w' & -> & P & C).
  unfold tables_grow, cache_within_precache. simpl. rewrite P, C.
  repeat split.
  - done.
  - intros p cf Hcf. rewrite lookup_insert_ne; [done | congruence].
  - intros I p [cf Hcf]. destruct (decide (filename = p)) as [<- | Hne].
    + by eexists.
    + rewrite lookup_insert_ne in Hcf by done. apply I. by eexists.
Qed.

Lemma find_grow filename lineno : respects tables_grow (find filename lineno).
Proof.
  apply (respects_bind tables_grow); [apply get_grow |].
  intros [c|]; [| apply (respects_mret tables_grow)].
  apply (respects_bind tables_grow); [apply (respects_read tables_grow) |].
  intros h. apply (respects_mret tables_grow).
Qed.

Lemma find_function_grow fn : respects tables_grow (find_function fn).
Proof.
  unfold find_function.
  destruct (as_FunctionType fn) as [f|]; [| apply (respects_mret tables_grow)].
  apply (respects_bind tables_grow); [apply prepare_grow |].
  intros _. apply find_grow.
Qed.

Lemma prep_grow filter module_name filename :
  respects tables_grow (prep filter module_name filename).
Proof.
  unfold prep. destruct filename as [f|], module_name as [m|];
    try apply (respects_mret tables_grow).
  destruct (filter f); [apply prepare_grow | apply (respects_mret tables_grow)].
Qed.

Lemma call_report_grow self rep name origin :
  respects tables_grow (call_report self rep name origin).
Proof.
  apply (respects_bind tables_grow); [by apply modify_grow |].
  intros _. destruct rep as [filter | behaviour].
  - apply prep_grow.
  - destruct (behaviour name origin).
    + apply (respects_raise tables_grow).
    + apply (respects_mret tables_grow).
Qed.

(** [find_spec] respects whatever the hook it calls respects. *)
Lemma find_spec_respects (R : relation World) `{!PreOrder R} hook name path :
  (∀ finder q p, respects R (hook finder q p)) →
  respects R (find_spec hook name path).
Proof.
  intros Hhook.
  apply (respects_bind R); [apply (respects_read R) |]. intros res.
  apply (respects_bind R).
  - apply (respects_for_each R). intros q.
    apply (respects_bind R); [apply (respects_read R) |]. intros mp.
    apply (respects_for_each R). intros finder.
    apply (respects_bind R); [apply Hhook |].
    intros _. apply (respects_mret R).
  - intros _. destruct (res_outcome res).
    + apply (respects_mret R).
    + apply (respects_mret R).
    + apply (respects_raise R).
Qed.

(** [find_module] respects a relation that its steps respect; the sniffers
    outside [ok] are those for which this is known otherwise. *)
Lemma find_module_respects (R : relation World) `{!PreOrder R} (ok : nat → bool) :
  (∀ self b, ok self = true → respects R (set_working self b)) →
  (∀ self spec, ok self = true → respects R (record_call (CallFindSpec self spec))) →
  (∀ self rep name origin,
     ok self = true → respects R (call_report self rep name origin)) →
  (∀ msg exc, respects R (log_error msg exc)) →
  (∀ fuel self spec path,
     ok self = false → respects R (find_module fuel self spec path)) →
  ∀ fuel self spec path, respects R (find_module fuel self spec path).
Proof.
  intros Hsw Hrc Hrep Hlog Hother.
  induction fuel as [|fuel IH]; intros self spec path.
  { apply (respects_out_of_fuel R). }
  destruct (ok self) eqn:Hok; [| by apply Hother].
  simpl.
  apply (respects_bind R); [apply (respects_read R) |].
  intros [sn|]; [| apply (respects_mret R)].
  destruct (negb (working sn)); [| apply (respects_mret R)].
  apply (respects_bind R); [by apply Hsw |]. intros _.
  apply (respects_bind R); [by apply Hrc |]. intros _.
  apply (respects_bind R); [by apply find_spec_respects |]. intros mspec.
  apply (respects_bind R).
  - destruct mspec as [ms|]; [| apply (respects_mret R)].
    destruct (isinstance_SourceFileLoader (ms_loader ms));
      [| apply (respects_mret R)].
    destruct (ms_name ms) as [name|], (ms_origin ms) as [origin|];
      try apply (respects_mret R).
    apply (respects_try_except R); [by apply Hrep | intros e; apply Hlog].
  - intros _. apply (respects_bind R); [by apply Hsw |].
    intros _. apply (respects_mret R).
Qed.

Lemma find_module_grow fuel self spec path :
  respects tables_grow (find_module fuel self spec path).
Proof.
  apply (find_module_respects tables_grow (λ _, true)).
  - intros. by apply modify_grow.
  - intros. by apply modify_grow.
  - intros. apply call_report_grow.
  - intros. by apply modify_grow.
  - intros; discriminate.
Qed.

Lemma auto_register_grow filter : respects tables_grow (auto_register filter).
Proof.
  apply (respects_bind tables_grow); [apply (respects_read tables_grow) |].
  intros mods. apply (respects_bind tables_grow).
  { apply (respects_for_each tables_grow). intros [name module]. apply prep_grow. }
  intros _. apply (respects_bind tables_grow).
  { apply (respects_bind tables_grow); [apply (respects_read tables_grow) |].
    intros self. apply (respects_bind tables_grow); [by apply modify_grow |].
    intros _. apply (respects_mret tables_grow). }
  intros sniffer. apply (respects_bind tables_grow); [by apply modify_grow |].
  intros _. apply (respects_mret tables_grow).
Qed.

Lemma register_total (observer : nat) (es : EventSource nat) :
  total same_tables (EventSource_register (λ l ev, observe l ev) observer es).
Proof.
  apply (total_bind same_tables); [| intros _; apply (total_mret same_tables)].
  apply (total_for_each same_tables). intros ev. apply observe_total.
Qed.

Lemma run_op_grow op w : tables_grow w (run_op op w).
Proof.
  destruct op; simpl.
  - apply prepare_grow.
  - apply get_grow.
  - apply find_grow.
  - apply find_function_grow.
  - apply auto_register_grow.
  - apply total_grow, (total_modify same_tables). by intros w0.
  - apply total_grow.
    apply (total_bind same_tables); [apply (total_read same_tables) | intros r].
    apply (total_bind same_tables); [apply register_total |].
    intros es. by apply (total_modify same_tables).
  - apply total_grow.
    apply (total_bind same_tables); [apply (total_read same_tables) | intros r].
    apply (total_bind same_tables); [apply register_total |].
    intros es. by apply (total_modify same_tables).
  - apply find_module_grow.
  - apply (respects_bind tables_grow); [apply (respects_read tables_grow) |].
    intros mp. destruct (list_remove_first sniffer mp).
    + by apply modify_grow.
    + apply (respects_raise tables_grow).
  - by apply same_tables_grow.
  - by apply same_tables_grow.
  - by apply same_tables_grow.
  - by apply same_tables_grow.
  - by apply same_tables_grow.
  - by apply same_tables_grow.
Qed.

Lemma run_ops_grow ops w : tables_grow w (run_ops ops w).
Proof.
  revert w. induction ops as [|op ops IH]; intros w; simpl.
  - reflexivity.
  - etrans; [apply run_op_grow | apply IH].
Qed.

Lemma get_promotion_inv filename cf w w' :
  cache (registry w) !! filename = None →
  get filename w = (Return (Some cf), w') →
  cache (registry w') = <[filename := cf]> (cache (registry w))
  ∧ precache (registry w') = precache (registry w)
  ∧ ∃ module_name source mtime,
      precache (registry w) !! filename = Some (module_name, source, mtime)
      ∧ is_Some (lookup_module module_name (sys_modules w)).
Proof.
  intros Hc E.
  destruct (precache (registry w) !! filename) as [[[m src] mt]|] eqn:Hp.
  2: { rewrite get_unknown in E by done. discriminate. }
  destruct (lookup_module m (sys_modules w)) as [module|] eqn:Hm.
  2: { rewrite (get_stale _ m src mt) in E by done. discriminate. }
  destruct (get_promotes _ _ _ _ _ _ Hc Hp Hm) as (w2 & E2 & P & C).
  rewrite E2 in E. injection E as <- <-.
  repeat split; [done | done |]. by exists m, src, mt.
Qed.

(** C1, amended: in every world reached from a fresh registry, a cached
    path still has its precache entry; no later operation removes or
    replaces an entry of the precache or of the cache; and when [get]
    promotes a path, the path enters the cache while the precache is left
    exactly as it was, so the path is in both tables from then on. *)
Theorem C1_promotion_keeps_the_precache_entry
    (files : gmap string (string * Z)) (mods : list (string * PyModule))
    (resolve : string → Resolution)
    (discover : string → string → PyModule → gmap Z Defn * EventSource CfListener)
    (ops : list Op) :
  let w := run_ops ops (World_init files mods resolve discover) in
  (∀ filename, is_Some (cache (registry w) !! filename) →
               is_Some (precache (registry w) !! filename))
  ∧ (∀ more filename,
       (∀ e, precache (registry w) !! filename = Some e →
             precache (registry (run_ops more w)) !! filename = Some e)
       ∧ (∀ cf, cache (registry w) !! filename = Some cf →
                cache (registry (run_ops more w)) !! filename = Some cf))
  ∧ (∀ filename cf w',
       cache (registry w) !! filename = None →
       get filename w = (Return (Some cf), w') →
       cache (registry w') !! filename = Some cf
       ∧ is_Some (precache (registry w') !! filename)
       ∧ precache (registry w') = precache (registry w)).
Proof.
  intros w. split; [| split].
  - destruct (run_ops_grow ops (World_init files mods resolve discover))
      as (_ & _ & I).
    apply I. intros p [cf Hcf]. simpl in Hcf. by rewrite lookup_empty in Hcf.
  - intros more p. destruct (run_ops_grow more w) as (P & C & _).
    split; intros; auto.
  - intros p cf w' Hc E.
    destruct (get_promotion_inv _ _ _ _ Hc E) as (C & P & m & src & mt & Hp & _).
    rewrite C, P, lookup_insert_eq, Hp. repeat split; [by eexists].
Qed.

Lemma C1_promotion_keeps_the_precache_entry_witness :
  cache (registry (after (get "app.py") (after (prepare "app" "app.py") example_world)))
    !! "app.py" = Some 0%nat
  ∧ is_Some (precache (registry (after (get "app.py")
                         (after (prepare "app" "app.py") example_world)))
               !! "app.py")
  ∧ precache (registry (after (get "app.py")
                (after (prepare "app" "app.py") example_world)))
    = precache (registry (after (prepare "app" "app.py") example_world)).
Proof.
  apply (proj2 (proj2 (C1_promotion_keeps_the_precache_entry
           {[ "app.py" := ("def main(): pass"%string, 100%Z);
              "lib.py" := ("x = 1"%string, 50%Z) ]}
           [("app"%string, example_module)] example_resolve example_discover
           [OpPrepare "app" "app.py"]))
         "app.py" 0%nat).
  - vm_compute. reflexivity.
  - vm_compute. reflexivity.
Defined.

(** C1 as stated fails: after [prepare] and a promoting [get], the path is
    in the precache and in the cache. *)
Lemma C1_counterexample :
  ¬ in_at_most_one_table "app.py"
      (run_ops [OpPrepare "app" "app.py"; OpGet "app.py"] example_world).
Proof.
  intros H. apply H. split; eexists; vm_compute; reflexivity.
Qed.

(** C5, amended: when [prepare(m, p)] returns and [p] was not already in
    the precache under another module name (it was in neither table, or
    stored under [m], or already cached), then, whatever happens in between,
    a [get(p)] made while [m] is in [sys.modules] returns a CodeFile, and
    every later [get(p)] returns the same reference and changes nothing. *)
Theorem C5_get_after_prepare_is_stable
    (w : World) (module_name filename : string) (w1 : World) (ops : list Op) :
  (is_Some (cache (registry w) !! filename)
   ∨ precache (registry w) !! filename = None
   ∨ ∃ source mtime,
       precache (registry w) !! filename = Some (module_name, source, mtime)) →
  prepare module_name filename w = (Return (), w1) →
  is_Some (lookup_module module_name (sys_modules (run_ops ops w1))) →
  ∃ cf w2,
    get filename (run_ops ops w1) = (Return (Some cf), w2)
    ∧ ∀ more, get filename (run_ops more w2) = (Return (Some cf), run_ops more w2).
Proof.
  intros Hpre E [module Hm].
  assert (is_Some (cache (registry w1) !! filename)
          ∨ ∃ source mtime,
              precache (registry w1) !! filename = Some (module_name, source, mtime))
    as Hw1.
  { destruct (contains (precache (registry w)) filename) eqn:Hp.
    { rewrite prepare_present in E by (by left). injection E as <-. simpl.
      destruct Hpre as [H | [H | H]]; [by left | | by right].
      apply contains_true in Hp. rewrite H in Hp. by destruct Hp. }
    destruct (contains (cache (registry w)) filename) eqn:Hc.
    { rewrite prepare_present in E by (by right). injection E as <-. simpl.
      left. by apply contains_true. }
    destruct (w_files w !! filename) as [[text mtime]|] eqn:Hf.
    2: { rewrite prepare_unreadable in E by done. discriminate. }
    rewrite (prepare_readable _ _ text mtime) in E by done.
    injection E as <-. right. exists text, mtime. simpl.
    by rewrite lookup_insert_eq. }
  destruct (run_ops_grow ops w1) as (P & C & _).
  set (wa := run_ops ops w1) in *.
  assert (∃ cf w2, get filename wa = (Return (Some cf), w2)
                   ∧ cache (registry w2) !! filename = Some cf) as (cf & w2 & G & Hcf).
  { destruct (cache (registry wa) !! filename) as [cf|] eqn:Hc.
    { exists cf, wa. split; [by apply get_cached | done]. }
    destruct Hw1 as [[cf0 H0] | (src & mt & Hp)].
    { apply C in H0. congruence. }
    apply P in Hp.
    destruct (get_promotes _ _ _ _ _ _ Hc Hp Hm) as (w2 & G & _ & Cw2).
    eexists _, w2. split; [exact G |]. by rewrite Cw2, lookup_insert_eq. }
  exists cf, w2. split; [exact G |].
  intros more. apply get_cached.
  destruct (run_ops_grow more w2) as (_ & C2 & _). by apply C2.
Qed.

Lemma C5_get_after_prepare_is_stable_witness :
  ∃ cf w2,
    get "app.py" (run_ops [OpGet "lib.py"] (after (prepare "app" "app.py") example_world))
    = (Return (Some cf), w2)
    ∧ ∀ more, get "app.py" (run_ops more w2) = (Return (Some cf), run_ops more w2).
Proof.
  apply (C5_get_after_prepare_is_stable example_world "app" "app.py"
           (after (prepare "app" "app.py") example_world) [OpGet "lib.py"]).
  - right. left. reflexivity.
  - vm_compute. reflexivity.
  - eexists. vm_compute. reflexivity.
Defined.

(** C5 as stated fails: [app.py] was first prepared under the name [old],
    which is not loaded; [prepare("app", "app.py")] then returns, [app] is
    loaded, and [get("app.py")] returns [None]. *)
Lemma C5_counterexample :
  ∃ w1 w2,
    prepare "old" "app.py" example_world = (Return (), w1)
    ∧ prepare "app" "app.py" w1 = (Return (), w2)
    ∧ is_Some (lookup_module "app" (sys_modules w2))
    ∧ get "app.py" w2 = (Return None, w2).
Proof.
  exists (after (prepare "old" "app.py") example_world).
  exists (after (prepare "app" "app.py")
            (after (prepare "old" "app.py") example_world)).
  split; [vm_compute; reflexivity |].
  split; [vm_compute; reflexivity |].
  split; [eexists; vm_compute; reflexivity |].
  vm_compute. reflexivity.
Qed.

(** ** The sniffer *)

Lemma find_module_unfold fuel self spec path sn w :
  w_sniffers w !! self = Some sn →
  working sn = false →
  find_module (S fuel) self spec path w
  = match find_spec (find_module fuel) spec path (world_resolving self spec w) with
    | (Return mspec, w3) =>
      match report_source_spec self (report sn) mspec w3 with
      | (Return _, w4) =>
        (Return None,
         set_sniffers
           (alter (λ s, {| working := false; report := report s |}) self
              (w_sniffers w4)) w4)
      | (Raise e, w4) => (Raise e, w4)
      | (OutOfFuel, w4) => (OutOfFuel, w4)
      end
    | (Raise e, w3) => (Raise e, w3)
    | (OutOfFuel, w3) => (OutOfFuel, w3)
    end.
Proof.
  intros Hsn Hw. simpl.
  unfold mbind at 1, Py_bind at 1, read at 1. rewrite Hsn, Hw. simpl.
  unfold mbind at 1, Py_bind at 1, set_working at 1, modify at 1.
  unfold mbind at 1, Py_bind at 1, record_call at 1, modify at 1.
  change (set_calls _ (set_sniffers _ w)) with (world_resolving self spec w).
  unfold mbind at 1, Py_bind at 1.
  destruct (find_spec (find_module fuel) spec path (world_resolving self spec w))
    as [[mspec|e|] w3]; [| done | done].
  fold (report_source_spec self (report sn) mspec).
  unfold mbind, Py_bind, set_working, modify.
  by destruct (report_source_spec self (report sn) mspec w3) as [[u|e|] w4].
Qed.

(** The guard: with its flag set, [find_module] returns [None] at once. *)
Lemma find_module_working fuel self spec path w :
  is_working self w = true →
  find_module (S fuel) self spec path w = (Return None, w).
Proof.
  unfold is_working. intros H. simpl.
  unfold mbind, Py_bind, read.
  destruct (w_sniffers w !! self) as [sn|]; [| done].
  by rewrite H.
Qed.

(** ** Counting calls *)

Lemma count_calls_app f l l' :
  count_calls f (l ++ l') = (count_calls f l + count_calls f l')%nat.
Proof. unfold count_calls. by rewrite List.filter_app, length_app. Qed.

Lemma count_calls_cons f c l :
  count_calls f (c :: l) = ((if f c then 1 else 0) + count_calls f l)%nat.
Proof. unfold count_calls. simpl. by destruct (f c). Qed.

Lemma count_report_by_le self l :
  count_calls (is_report_by self) l ≤ count_calls is_report l.
Proof.
  unfold count_calls. induction l as [|c l IH]; simpl; [done|].
  destruct c; simpl; try done.
  destruct (Nat.eqb sniffer self); simpl; lia.
Qed.

Lemma calls_added_preorder (P : list Call → Prop) :
  P [] → (∀ a b, P a → P b → P (a ++ b)) → PreOrder (calls_added P).
Proof.
  intros Hnil Happ. split.
  - intros w. exists []. by rewrite app_nil_r.
  - intros w1 w2 w3 (a & Ea & Pa) (b & Eb & Pb). exists (a ++ b).
    split; [| by apply Happ]. by rewrite Eb, Ea, app_assoc.
Qed.

#[global] Instance unreported_preorder self :
  PreOrder (calls_added (λ new, count_calls (is_report_by self) new = 0%nat)).
Proof.
  apply calls_added_preorder; [done |].
  intros a b Ha Hb. rewrite count_calls_app. lia.
Qed.

#[global] Instance prepares_follow_reports_preorder :
  PreOrder prepares_follow_reports.
Proof.
  apply calls_added_preorder; [done |].
  intros a b Ha Hb. rewrite !count_calls_app. lia.
Qed.

#[global] Instance guarded_preorder self : PreOrder (guarded self).
Proof.
  split.
  - intros w H. split; [done | reflexivity].
  - intros w1 w2 w3 G12 G23 H1.
    destruct (G12 H1) as [H2 C12]. destruct (G23 H2) as [H3 C23].
    split; [done | by etrans].
Qed.

#[global] Instance same_hooks_preorder : PreOrder same_hooks.
Proof.
  split.
  - by intros w.
  - intros w1 w2 w3 (A1 & B1 & C1) (A2 & B2 & C2). repeat split; congruence.
Qed.

(** ** What a report does *)

Lemma prepare_effect module_name filename w :
  (prepare module_name filename w).1 ≠ OutOfFuel
  ∧ same_hooks w (after (prepare module_name filename) w)
  ∧ ∃ new,
      w_calls (after (prepare module_name filename) w)
      = w_calls w ++ CallPrepare module_name filename :: new
      ∧ (new = [] ∨ new = [CallOpen filename]).
Proof.
  unfold after.
  destruct (contains (precache (registry w)) filename) eqn:Hp.
  { rewrite prepare_present by (by left).
    repeat split; [done |]. exists []. by split; [| left]. }
  destruct (contains (cache (registry w)) filename) eqn:Hc.
  { rewrite prepare_present by (by right).
    repeat split; [done |]. exists []. by split; [| left]. }
  destruct (w_files w !! filename) as [[text mtime]|] eqn:Hf.
  - rewrite (prepare_readable _ _ text mtime) by done.
    repeat split; [done |]. exists [CallOpen filename]. by split; [| right].
  - rewrite prepare_unreadable by done.
    repeat split; [done |]. exists [CallOpen filename]. by split; [| right].
Qed.

Lemma call_report_effect self rep name origin w :
  (call_report self rep name origin w).1 ≠ OutOfFuel
  ∧ same_hooks w (after (call_report self rep name origin) w)
  ∧ ∃ new,
      w_calls (after (call_report self rep name origin) w)
      = w_calls w ++ CallReport self name origin :: new
      ∧ count_calls is_report new = 0%nat
      ∧ count_calls is_prepare new ≤ 1.
Proof.
  unfold call_report, after.
  erewrite bind_Return by reflexivity.
  destruct rep as [filter | behaviour]; simpl.
  - destruct (filter origin).
    + destruct (prepare_effect name origin
                  (set_calls (w_calls w ++ [CallReport self name origin]) w))
        as (Hfuel & Hh & new & E & Hnew).
      split; [done |]. split; [exact Hh |].
      exists (CallPrepare name origin :: new). unfold after in E.
      split; [rewrite E; simpl; by rewrite <- app_assoc |].
      destruct Hnew as [-> | ->]; by compute.
    + split; [done |]. split; [done |]. exists [].
      unfold count_calls. simpl. repeat split; lia.
  - destruct (behaviour name origin); unfold raise; simpl;
      (split; [done |]); (split; [done |]); exists [];
      unfold count_calls; simpl; repeat split; lia.
Qed.

(** The [try]/[except] around the report: it returns whatever the callback
    does, and an exception of the callback ends in the log. *)
Lemma report_source_spec_effect self rep mspec w :
  ∃ w' new,
    report_source_spec self rep mspec w = (Return (), w')
    ∧ same_hooks w w'
    ∧ w_calls w' = w_calls w ++ new
    ∧ count_calls (is_report_by self) new ≤ 1
    ∧ count_calls is_prepare new ≤ count_calls is_report new
    ∧ (∀ x, x ≠ self → count_calls (is_report_by x) new = 0%nat).
Proof.
  assert (∃ w' new,
            (Return (), w) = (Return (), w')
            ∧ same_hooks w w'
            ∧ w_calls w' = w_calls w ++ new
            ∧ count_calls (is_report_by self) new ≤ 1
            ∧ count_calls is_prepare new ≤ count_calls is_report new
            ∧ (∀ x, x ≠ self → count_calls (is_report_by x) new = 0%nat)) as Hnil.
  { exists w, []. rewrite app_nil_r. unfold count_calls. simpl.
    repeat split; lia. }
  unfold report_source_spec.
  destruct mspec as [ms|]; [| exact Hnil].
  destruct (isinstance_SourceFileLoader (ms_loader ms)); [| exact Hnil].
  destruct (ms_name ms) as [name|]; [| exact Hnil].
  destruct (ms_origin ms) as [origin|]; [| exact Hnil].
  clear Hnil.
  destruct (call_report_effect self rep name origin w)
    as (Hfuel & Hh & new & E & Hrep & Hprep).
  unfold try_except, after in *.
  assert (count_calls (is_report_by self) (CallReport self name origin :: new) ≤ 1
          ∧ count_calls is_prepare (CallReport self name origin :: new)
            ≤ count_calls is_report (CallReport self name origin :: new)
          ∧ (∀ x, x ≠ self →
               count_calls (is_report_by x) (CallReport self name origin :: new)
               = 0%nat)) as Hcount.
  { pose proof (count_report_by_le self new) as Hle.
    rewrite !count_calls_cons. simpl. rewrite Nat.eqb_refl.
    repeat split; [lia | lia |].
    intros x Hx. rewrite count_calls_cons. simpl.
    pose proof (count_report_by_le x new).
    destruct (Nat.eqb_spec self x); [congruence | lia]. }
  destruct (call_report self rep name origin w) as [[[]|e|] w1]; simpl in *.
  - exists w1, (CallReport self name origin :: new).
    destruct Hcount as (H1 & H2 & H3). by split_and!.
  - eexists _, (CallReport self name origin :: new).
    destruct Hcount as (H1 & H2 & H3).
    split; [reflexivity |]. simpl. by split_and!.
  - done.
Qed.

(** ** The recursion guard *)

Lemma modify_guarded self (f : World → World) :
  (∀ w, is_working self (f w) = is_working self w) →
  (∀ w, w_calls (f w) = w_calls w) →
  respects (guarded self) (modify f).
Proof.
  intros Hf Hc. apply (respects_modify (guarded self)). intros w Hw.
  split; [by rewrite Hf |]. exists []. by rewrite Hc, app_nil_r.
Qed.

Lemma set_working_guarded self x b :
  x ≠ self → respects (guarded self) (set_working x b).
Proof.
  intros Hx. apply modify_guarded; [| done].
  intros w. unfold is_working. simpl. by rewrite list_lookup_alter_ne.
Qed.

Lemma record_call_guarded self c :
  is_report_by self c = false → respects (guarded self) (record_call c).
Proof.
  intros Hc. apply (respects_modify (guarded self)). intros w Hw.
  split; [done |]. exists [c]. split; [done |].
  rewrite count_calls_cons, Hc. done.
Qed.

Lemma call_report_guarded self x rep name origin :
  x ≠ self → respects (guarded self) (call_report x rep name origin).
Proof.
  intros Hx w Hw.
  destruct (call_report_effect x rep name origin w)
    as (_ & (Hs & _ & _) & new & E & Hrep & _).
  split.
  - unfold is_working in *. by rewrite Hs.
  - exists (CallReport x name origin :: new). split; [done |].
    rewrite count_calls_cons. simpl.
    pose proof (count_report_by_le self new).
    destruct (Nat.eqb_spec x self); [congruence | lia].
Qed.

Lemma find_module_guarded self fuel x spec path :
  respects (guarded self) (find_module fuel x spec path).
Proof.
  apply (find_module_respects (guarded self) (λ x, negb (Nat.eqb x self))).
  - intros x0 b Hx. apply set_working_guarded.
    intros ->. by rewrite Nat.eqb_refl in Hx.
  - intros x0 s Hx. by apply record_call_guarded.
  - intros x0 rep name origin Hx. apply call_report_guarded.
    intros ->. by rewrite Nat.eqb_refl in Hx.
  - intros msg exc. by apply modify_guarded.
  - intros [|f] x0 s p Hx.
    { apply (respects_out_of_fuel (guarded self)). }
    apply negb_false_iff, Nat.eqb_eq in Hx. subst x0.
    intros w Hw. unfold after. rewrite find_module_working by done.
    split; [done | reflexivity].
Qed.

Lemma find_module_prepares fuel self spec path :
  respects prepares_follow_reports (find_module fuel self spec path).
Proof.
  apply (find_module_respects prepares_follow_reports (λ _, true)).
  - intros x b _. apply (respects_modify prepares_follow_reports).
    intros w. exists []. by rewrite app_nil_r.
  - intros x s _. apply (respects_modify prepares_follow_reports).
    intros w. by exists [CallFindSpec x s].
  - intros x rep name origin _ w.
    destruct (call_report_effect x rep name origin w)
      as (_ & _ & new & E & Hrep & Hprep).
    exists (CallReport x name origin :: new). split; [done |].
    rewrite !count_calls_cons. simpl. lia.
  - intros msg exc. apply (respects_modify prepares_follow_reports).
    intros w. exists []. by rewrite app_nil_r.
  - intros; discriminate.
Qed.

Lemma find_module_dangling fuel self spec path w :
  w_sniffers w !! self = None →
  find_module (S fuel) self spec path w = (Return None, w).
Proof.
  intros H. simpl. unfold mbind, Py_bind, read. by rewrite H.
Qed.

Lemma world_resolving_working self spec sn w :
  w_sniffers w !! self = Some sn →
  is_working self (world_resolving self spec w) = true.
Proof.
  intros H. unfold is_working. simpl. by rewrite list_lookup_alter_eq, H.
Qed.

(** One invocation of [find_module] makes at most one report of its own. *)
Lemma find_module_reports_once fuel self spec path w :
  calls_added (λ new, count_calls (is_report_by self) new ≤ 1)
    w (after (find_module fuel self spec path) w).
Proof.
  assert (calls_added (λ new, count_calls (is_report_by self) new ≤ 1) w w)
    as Hnil.
  { exists []. rewrite app_nil_r. split; [done |]. unfold count_calls. simpl. lia. }
  unfold after. destruct fuel as [|fuel]; [exact Hnil |].
  destruct (w_sniffers w !! self) as [sn|] eqn:Hsn.
  2: { by rewrite find_module_dangling. }
  destruct (working sn) eqn:Hw.
  { rewrite find_module_working; [exact Hnil |].
    unfold is_working. by rewrite Hsn. }
  rewrite (find_module_unfold _ _ _ _ sn) by done.
  pose proof (find_spec_respects (guarded self) (find_module fuel) spec path
                (find_module_guarded self fuel) (world_resolving self spec w)
                (world_resolving_working self spec sn w Hsn))
    as (_ & new3 & E3 & C3).
  unfold after in E3. simpl in E3.
  destruct (find_spec (find_module fuel) spec path (world_resolving self spec w))
    as [[mspec|e|] w3]; simpl in *.
  - destruct (report_source_spec_effect self (report sn) mspec w3)
      as (w4 & new4 & E4 & _ & Ec4 & Hc4 & _).
    rewrite E4. simpl. exists ([CallFindSpec self spec] ++ new3 ++ new4).
    split; [simpl; by rewrite Ec4, E3, <- !app_assoc |].
    rewrite !count_calls_app, count_calls_cons. simpl.
    lia.
  - exists ([CallFindSpec self spec] ++ new3).
    split; [by rewrite E3, <- !app_assoc |].
    rewrite !count_calls_app, count_calls_cons. simpl.
    lia.
  - exists ([CallFindSpec self spec] ++ new3).
    split; [by rewrite E3, <- !app_assoc |].
    rewrite !count_calls_app, count_calls_cons. simpl.
    lia.
Qed.

(** A loop whose rounds all leave the world as it is leaves it as it is,
    however it ends. *)
Lemma for_each_fixed {A} (l : list A) (body : A → Py unit) w :
  (∀ x, x ∈ l → after (body x) w = w) →
  after (for_each l body) w = w.
Proof.
  induction l as [|a l IH]; intros Hbody; [done |].
  pose proof (Hbody a (list_elem_of_here a l)) as Ha.
  unfold after in *. simpl. unfold mbind, Py_bind.
  destruct (body a w) as [[u|e|] w1]; simpl in Ha; subst w1; [| done | done].
  apply IH. intros x Hx. apply Hbody. by apply list_elem_of_further.
Qed.

(** While the flag of [self] is set and no other sniffer is installed, the
    resolution calls back [self] only, which declines: [find_spec] leaves
    the world as it is, however it ends. *)
Lemma find_spec_sole_sniffer fuel self name path w :
  (∀ x, x ∈ sys_meta_path w → x = self) →
  is_working self w = true →
  after (find_spec (find_module fuel) name path) w = w.
Proof.
  intros Hmp Hflag. unfold after, find_spec.
  erewrite bind_Return by reflexivity.
  pose proof (for_each_fixed (res_queries (importlib_find_spec w name))
                (λ q, mp ← read sys_meta_path;
                      for_each mp (λ finder,
                        find_module fuel finder q path ;; mret ())) w) as Hloop.
  unfold after in Hloop. unfold mbind at 1, Py_bind at 1.
  destruct (for_each (res_queries (importlib_find_spec w name)) _ w)
    as [[u|e|] w1]; simpl in Hloop.
  1: rewrite Hloop; [by destruct (res_outcome (importlib_find_spec w name)) |].
  2: rewrite Hloop; [done |].
  3: rewrite Hloop; [done |].
  all: intros q _; erewrite bind_Return by reflexivity;
    apply for_each_fixed; intros finder Hin; apply Hmp in Hin as ->;
    unfold after, mbind, Py_bind;
    destruct fuel as [|fuel]; [done |]; by rewrite find_module_working.
Qed.

(** The report of one invocation: at most one report, at most one
    [prepare] call. *)
Lemma report_source_spec_once self rep mspec w :
  ∃ w' new,
    report_source_spec self rep mspec w = (Return (), w')
    ∧ w_calls w' = w_calls w ++ new
    ∧ count_calls is_report new ≤ 1
    ∧ count_calls is_prepare new ≤ 1.
Proof.
  assert (∃ w' new,
            (Return (), w) = (Return (), w')
            ∧ w_calls w' = w_calls w ++ new
            ∧ count_calls is_report new ≤ 1
            ∧ count_calls is_prepare new ≤ 1) as Hnil.
  { exists w, []. rewrite app_nil_r. unfold count_calls. simpl.
    repeat split; lia. }
  unfold report_source_spec.
  destruct mspec as [ms|]; [| exact Hnil].
  destruct (isinstance_SourceFileLoader (ms_loader ms)); [| exact Hnil].
  destruct (ms_name ms) as [name|]; [| exact Hnil].
  destruct (ms_origin ms) as [origin|]; [| exact Hnil].
  clear Hnil.
  destruct (call_report_effect self rep name origin w)
    as (Hfuel & _ & new & E & Hrep & Hprep).
  unfold try_except, after in *.
  assert (count_calls is_report (CallReport self name origin :: new) ≤ 1
          ∧ count_calls is_prepare (CallReport self name origin :: new) ≤ 1)
    as [H1 H2].
  { rewrite !count_calls_cons. simpl. lia. }
  destruct (call_report self rep name origin w) as [[[]|e|] w1]; simpl in *.
  - by exists w1, (CallReport self name origin :: new).
  - eexists _, (CallReport self name origin :: new).
    split; [reflexivity |]. by simpl.
  - done.
Qed.

(** With no other sniffer installed, an invocation records at most one
    report and at most one [prepare] call in all. *)
Lemma find_module_sole_sniffer fuel self spec path w :
  (∀ x, x ∈ sys_meta_path w → x = self) →
  calls_added
    (λ new, count_calls is_report new ≤ 1 ∧ count_calls is_prepare new ≤ 1)
    w (after (find_module fuel self spec path) w).
Proof.
  intros Hmp.
  assert (calls_added
            (λ new, count_calls is_report new ≤ 1
                    ∧ count_calls is_prepare new ≤ 1) w w) as Hnil.
  { exists []. rewrite app_nil_r. unfold count_calls. simpl.
    repeat split; lia. }
  unfold after. destruct fuel as [|fuel]; [exact Hnil |].
  destruct (w_sniffers w !! self) as [sn|] eqn:Hsn.
  2: { by rewrite find_module_dangling. }
  destruct (working sn) eqn:Hw.
  { rewrite find_module_working; [exact Hnil |].
    unfold is_working. by rewrite Hsn. }
  rewrite (find_module_unfold _ _ _ _ sn) by done.
  pose proof (find_spec_sole_sniffer fuel self spec path
                (world_resolving self spec w) Hmp
                (world_resolving_working self spec sn w Hsn)) as E3.
  unfold after in E3.
  destruct (find_spec (find_module fuel) spec path (world_resolving self spec w))
    as [[mspec|e|] w3]; simpl in E3; subst w3.
  - destruct (report_source_spec_once self (report sn) mspec
                (world_resolving self spec w))
      as (w4 & new4 & E4 & Ec4 & Hr4 & Hp4).
    rewrite E4. simpl. exists ([CallFindSpec self spec] ++ new4).
    split; [simpl; rewrite Ec4; simpl; by rewrite <- !app_assoc |].
    rewrite !count_calls_app, !count_calls_cons. by simpl.
  - exists [CallFindSpec self spec]. split; [done |].
    unfold count_calls. simpl. lia.
  - exists [CallFindSpec self spec]. split; [done |].
    unfold count_calls. simpl. lia.
Qed.

(** C4, amended: called while its flag is set, [find_module] returns [None]
    and the world is as before: no [find_spec], no report.  So an
    invocation, with whatever nested invocations its own [find_spec]
    causes, records at most one report of this sniffer, and no more
    [prepare] calls than there are reports of all sniffers.  When no other
    sniffer is on [sys.meta_path], the nested invocations are all of this
    sniffer and decline: the invocation records at most one report and at
    most one [prepare] call in all. *)
Theorem C4_nested_call_declines_and_attempt_reports_once :
  (∀ fuel self spec path w,
     is_working self w = true →
     find_module (S fuel) self spec path w = (Return None, w))
  ∧ (∀ fuel self spec path w,
       ∃ new,
         w_calls (after (find_module fuel self spec path) w) = w_calls w ++ new
         ∧ count_calls (is_report_by self) new ≤ 1
         ∧ count_calls is_prepare new ≤ count_calls is_report new
         ∧ ((∀ x, x ∈ sys_meta_path w → x = self) →
            count_calls is_report new ≤ 1 ∧ count_calls is_prepare new ≤ 1)).
Proof.
  split.
  - intros. by apply find_module_working.
  - intros fuel self spec path w.
    destruct (find_module_reports_once fuel self spec path w) as (new & E & H1).
    destruct (find_module_prepares fuel self spec path w) as (new' & E' & H2).
    rewrite E in E'. apply app_inv_head in E'. subst new'.
    exists new. split_and!; try done.
    intros Hmp.
    destruct (find_module_sole_sniffer fuel self spec path w Hmp)
      as (new' & E' & H3).
    rewrite E in E'. apply app_inv_head in E'. by subst new'.
Qed.

Lemma C4_nested_call_declines_and_attempt_reports_once_witness :
  (is_working 0 resolving_world = true
   ∧ find_module 1 0 "lib" None resolving_world = (Return None, resolving_world))
  ∧ ((∀ x, x ∈ sys_meta_path sniffing_world → x = 0%nat)
     ∧ ∃ new,
         w_calls (after (find_module 2 0 "lib" None) sniffing_world)
         = w_calls sniffing_world ++ new
         ∧ count_calls is_report new ≤ 1
         ∧ count_calls is_prepare new ≤ 1).
Proof.
  split.
  - split; [reflexivity |].
    apply (proj1 C4_nested_call_declines_and_attempt_reports_once
             0%nat 0%nat "lib"%string None resolving_world).
    reflexivity.
  - assert (∀ x, x ∈ sys_meta_path sniffing_world → x = 0%nat) as Hmp.
    { intros x Hx. change (sys_meta_path sniffing_world) with [0%nat] in Hx.
      by apply list_elem_of_singleton in Hx. }
    split; [exact Hmp |].
    destruct (proj2 C4_nested_call_declines_and_attempt_reports_once
                2%nat 0%nat "lib"%string None sniffing_world)
      as (new & E & _ & _ & H).
    exists new. split; [exact E |]. exact (H Hmp).
Defined.

(** C4 as stated fails when [auto_register] has run twice.  Sniffer [1],
    in front, is asked about [lib]; its resolution asks the chain, where
    sniffer [0] is idle, resolves [lib] itself and reports it; then sniffer
    [1] reports it too: one top-level attempt, two reports, two [prepare]
    calls. *)
Lemma C4_counterexample :
  sys_meta_path twice_registered_world = [1; 0]%nat
  ∧ is_working 0 twice_registered_world = false
  ∧ is_working 1 twice_registered_world = false
  ∧ find_module 3 1 "lib" None twice_registered_world
    = (Return None, after (find_module 3 1 "lib" None) twice_registered_world)
  ∧ w_calls (after (find_module 3 1 "lib" None) twice_registered_world)
    = w_calls twice_registered_world
      ++ [CallFindSpec 1 "lib"; CallFindSpec 0 "lib";
          CallReport 0 "lib" "lib.py"; CallPrepare "lib" "lib.py";
          CallOpen "lib.py";
          CallReport 1 "lib" "lib.py"; CallPrepare "lib" "lib.py"]
  ∧ ¬ (∃ new,
         w_calls (after (find_module 3 1 "lib" None) twice_registered_world)
         = w_calls twice_registered_world ++ new
         ∧ count_calls is_report new ≤ 1).
Proof.
  assert (w_calls (after (find_module 3 1 "lib" None) twice_registered_world)
          = w_calls twice_registered_world
            ++ [CallFindSpec 1 "lib"; CallFindSpec 0 "lib";
                CallReport 0 "lib" "lib.py"; CallPrepare "lib" "lib.py";
                CallOpen "lib.py";
                CallReport 1 "lib" "lib.py"; CallPrepare "lib" "lib.py"]) as E
    by (vm_compute; reflexivity).
  split; [vm_compute; reflexivity |].
  split; [vm_compute; reflexivity |].
  split; [vm_compute; reflexivity |].
  split; [vm_compute; reflexivity |].
  split; [exact E |].
  intros (new & E' & H). rewrite E in E'. apply app_inv_head in E'.
  subst new. vm_compute in H. lia.
Qed.

(** The example process imports [lib]: the resolution of the sniffer asks
    the chain about [lib], the sniffer is called again and declines, and one
    report, one [prepare], one file read follow. *)
Example import_lib_reports_once :
  find_module 2 0 "lib" None sniffing_world
  = (Return None, after (find_module 2 0 "lib" None) sniffing_world)
  ∧ w_calls (after (find_module 2 0 "lib" None) sniffing_world)
    = w_calls sniffing_world
      ++ [CallFindSpec 0 "lib"; CallReport 0 "lib" "lib.py";
          CallPrepare "lib" "lib.py"; CallOpen "lib.py"]
  ∧ is_working 0 (after (find_module 2 0 "lib" None) sniffing_world) = false.
Proof. split_and!; vm_compute; reflexivity. Qed.

(** ** [find_module] returns *)

Lemma for_each_invariant {A} (I : World → Prop) (l : list A) (body : A → Py unit) :
  (∀ x w, I w → ∃ w', body x w = (Return (), w') ∧ I w') →
  ∀ w, I w → ∃ w', for_each l body w = (Return (), w') ∧ I w'.
Proof.
  intros Hbody. induction l as [|x l IH]; intros w Hw; simpl.
  - by exists w.
  - destruct (Hbody x w Hw) as (w1 & E1 & H1).
    destruct (IH w1 H1) as (w2 & E2 & H2).
    exists w2. split; [| done]. by rewrite (bind_Return _ _ _ _ _ E1).
Qed.



Lemma alter_working_restore (l : list ImportSniffer) i sn :
  l !! i = Some sn → working sn = false →
  alter (λ s, {| working := false; report := report s |}) i
    (alter (λ s, {| working := true; report := report s |}) i l)
  = l.
Proof.
  intros H Hw. rewrite list_alter_alter_eq.
  rewrite (list_alter_ext _ id l l i); [by apply list_alter_id | | done].
  intros x Hx. rewrite H in Hx. injection Hx as <-.
  destruct sn as [wk rp]. simpl in *. by subst wk.
Qed.



#[global] Instance same_reporters_preorder : PreOrder same_reporters.
Proof.
  split.
  - by intros w.
  - intros w1 w2 w3 H1 H2. unfold same_reporters in *. congruence.
Qed.



(** When [find_spec] raises for the name, an idle sniffer does not return
    and its flag stays set. *)
Lemma find_module_find_spec_raises fuel self spec path sn e w :
  w_sniffers w !! self = Some sn →
  working sn = false →
  res_outcome (importlib_find_spec w spec) = SpecRaises e →
  ∃ o w', find_module (S fuel) self spec path w = (o, w')
          ∧ (∀ r, o ≠ Return r)
          ∧ is_working self w' = true.
Proof.
  intros Hsn Hw Hres.
  rewrite (find_module_unfold _ _ _ _ sn) by done.
  pose proof (find_spec_respects (guarded self) (find_module fuel) spec path
                (find_module_guarded self fuel) (world_resolving self spec w)
                (world_resolving_working self spec sn w Hsn))
    as (Hflag & _).
  unfold after in Hflag.
  assert (∀ r w3, find_spec (find_module fuel) spec path
                    (world_resolving self spec w) ≠ (Return r, w3)) as Hnot.
  { intros r w3. unfold find_spec. erewrite bind_Return by reflexivity.
    change (importlib_find_spec (world_resolving self spec w))
      with (importlib_find_spec w).
    rewrite Hres. unfold mbind, Py_bind.
    by destruct (for_each _ _ _) as [[u|e'|] w']. }
  destruct (find_spec (find_module fuel) spec path (world_resolving self spec w))
    as [[r|e'|] w3]; simpl in *.
  - by destruct (Hnot r w3).
  - by exists (Raise e'), w3.
  - by exists OutOfFuel, w3.
Qed.



(** In [mixed_world] the resolution of [__main__] raises while that of
    [lib] returns. *)
Example mixed_world_raises_for_main :
  ∃ w', find_module 2 0 "__main__" None mixed_world
        = (Raise (ValueError "__main__.__spec__ is None"), w').
Proof. eexists. vm_compute. reflexivity. Qed.

(** The callback of [failing_callback_world] raises: [find_module] returns
    [None], the flag is clear, the error is in the log. *)
Example callback_error_is_logged :
  find_module 2 0 "lib" None failing_callback_world
  = (Return None, after (find_module 2 0 "lib" None) failing_callback_world)
  ∧ is_working 0 (after (find_module 2 0 "lib" None) failing_callback_world) = false
  ∧ w_logged (after (find_module 2 0 "lib" None) failing_callback_world)
    = [("jurigged: Error processing spec lib"%string, CallbackError "boom")].
Proof. split_and!; vm_compute; reflexivity. Qed.


(** ** Further properties of the sniffer and of [auto_register] *)

(** X1: a sniffer that is the only one on [sys.meta_path] and whose flag is
    clear is asked about a name for which [importlib.util.find_spec]
    raises.  [find_module] then raises that exception, nothing is reported,
    and the flag is left set: the world is the one in which [find_spec] was
    called, and from it every later invocation declines at once. *)
Theorem X1_find_spec_error_leaves_the_flag_set
    (fuel : nat) (self : nat) (spec : string) (path : option (list string))
    (sn : ImportSniffer) (e : PyException) (w : World) :
  w_sniffers w !! self = Some sn →
  working sn = false →
  sys_meta_path w = [self] →
  res_outcome (importlib_find_spec w spec) = SpecRaises e →
  find_module (S (S fuel)) self spec path w
  = (Raise e, world_resolving self spec w)
  ∧ ∀ fuel' spec' path',
      find_module (S fuel') self spec' path' (world_resolving self spec w)
      = (Return None, world_resolving self spec w).
Proof.
  intros Hsn Hw Hmp Hres.
  pose proof (world_resolving_working self spec sn w Hsn) as Hflag.
  split; [| intros; by apply find_module_working].
  rewrite (find_module_unfold _ _ _ _ sn) by done.
  set (w2 := world_resolving self spec w) in *.
  assert (find_spec (find_module (S fuel)) spec path w2 = (Raise e, w2)) as ->;
    [| done].
  unfold find_spec. erewrite bind_Return by reflexivity.
  change (importlib_find_spec w2) with (importlib_find_spec w).
  destruct (for_each_invariant (λ w', w' = w2)
              (res_queries (importlib_find_spec w spec))
              (λ q, mp ← read sys_meta_path;
                    for_each mp (λ finder,
                      find_module (S fuel) finder q path ;; mret ())))
    with (w := w2) as (w3 & E3 & ->); [| done |].
  - intros q wq ->. exists w2. split; [| done].
    erewrite bind_Return by reflexivity.
    change (sys_meta_path w2) with (sys_meta_path w). rewrite Hmp. simpl.
    erewrite bind_Return; [| erewrite bind_Return; [reflexivity |]].
    + reflexivity.
    + by apply find_module_working.
  - erewrite bind_Return by exact E3. by rewrite Hres.
Qed.

Lemma X1_find_spec_error_leaves_the_flag_set_witness :
  find_module 2 0 "__main__" None raising_world
  = (Raise (ValueError "__main__.__spec__ is None"),
     world_resolving 0 "__main__" raising_world)
  ∧ ∀ fuel' spec' path',
      find_module (S fuel') 0 spec' path' (world_resolving 0 "__main__" raising_world)
      = (Return None, world_resolving 0 "__main__" raising_world).
Proof.
  apply (X1_find_spec_error_leaves_the_flag_set 0 0 "__main__" None
           (ImportSniffer_init (Prep (λ _, true)))
           (ValueError "__main__.__spec__ is None") raising_world);
    reflexivity.
Defined.

Lemma prep_same_hooks filter module_name filename :
  respects same_hooks (prep filter module_name filename).
Proof.
  unfold prep. destruct filename as [f|], module_name as [m|];
    try apply (respects_mret same_hooks).
  destruct (filter f); [| apply (respects_mret same_hooks)].
  intros w. by destruct (prepare_effect m f w) as (_ & H & _).
Qed.

(** X2: when [auto_register] returns, the sniffer it returns is a new
    object, idle, with the closure over the filter as its callback, and it
    sits at the front of [sys.meta_path]; the other sniffers and the rest of
    the path are untouched. *)
Theorem X2_auto_register_installs_a_new_sniffer_in_front
    (filter : string → bool) (w : World) (sniffer : nat) (w' : World) :
  auto_register filter w = (Return sniffer, w') →
  sniffer = length (w_sniffers w)
  ∧ w_sniffers w' = w_sniffers w ++ [ImportSniffer_init (Prep filter)]
  ∧ sys_meta_path w' = sniffer :: sys_meta_path w.
Proof.
  unfold auto_register. erewrite bind_Return by reflexivity.
  pose proof (respects_for_each same_hooks (sys_modules w)
                (λ '(name, module), prep filter (mod_name module) (mod_file module)))
    as Hloop.
  intros E. unfold mbind at 1, Py_bind at 1 in E.
  specialize (Hloop (λ x, match x with
                          | (name, module) => prep_same_hooks filter _ _
                          end) w).
  unfold after in Hloop.
  destruct (for_each (sys_modules w) _ w) as [[[]|e|] w1];
    simpl in Hloop; [| discriminate | discriminate].
  destruct Hloop as (Hs & Hm & _).
  unfold ImportSniffer_new, install, mbind, Py_bind, read, modify in E.
  simpl in E. injection E as <- <-. simpl. by rewrite Hs, Hm.
Qed.

Lemma X2_auto_register_installs_a_new_sniffer_in_front_witness :
  0%nat = length (w_sniffers two_modules_world)
  ∧ w_sniffers (after (auto_register not_b) two_modules_world)
    = w_sniffers two_modules_world ++ [ImportSniffer_init (Prep not_b)]
  ∧ sys_meta_path (after (auto_register not_b) two_modules_world)
    = 0%nat :: sys_meta_path two_modules_world.
Proof.
  apply (X2_auto_register_installs_a_new_sniffer_in_front
           not_b two_modules_world 0
           (after (auto_register not_b) two_modules_world)).
  vm_compute. reflexivity.
Defined.

(** The scenario of the specification: [A] and [B] are loaded and the
    filter rejects [b.py], so [auto_register] prepares [A] only; importing
    [C] then goes through the sniffer, whose resolution asks the chain about
    two names, and ends in one report and one [prepare]. *)
Example auto_register_then_import :
  w_calls (after (auto_register not_b) two_modules_world)
  = [CallPrepare "A" "a.py"; CallOpen "a.py"]
  ∧ find_module 2 0 "C" None (after (auto_register not_b) two_modules_world)
    = (Return None,
       after (find_module 2 0 "C" None)
         (after (auto_register not_b) two_modules_world))
  ∧ w_calls (after (find_module 2 0 "C" None)
               (after (auto_register not_b) two_modules_world))
    = [CallPrepare "A" "a.py"; CallOpen "a.py"; CallFindSpec 0 "C";
       CallReport 0 "C" "c.py"; CallPrepare "C" "c.py"; CallOpen "c.py"].
Proof. split_and!; vm_compute; reflexivity. Qed.

(** ** [install] and [uninstall] *)

Lemma list_remove_first_None x l : x ∉ l → list_remove_first x l = None.
Proof.
  induction l as [|y l IH]; intros H; simpl; [done |].
  apply not_elem_of_cons in H as [Hne Hl].
  destruct (Nat.eqb_spec y x); [congruence |]. by rewrite IH.
Qed.

(** X3: [uninstall] right after [install] returns and puts the world back
    as it was, also when the sniffer was on the path already, since
    [list.remove] drops the first occurrence and [install] inserts at the
    front; [uninstall] of a sniffer that is not on [sys.meta_path] raises
    [ValueError] and changes nothing. *)
Theorem X3_uninstall_undoes_install :
  (∀ self w, uninstall self (after (install self) w) = (Return (), w))
  ∧ (∀ self w,
       self ∉ sys_meta_path w →
       uninstall self w
       = (Raise (ValueError "list.remove(x): x not in list"), w)).
Proof.
  split.
  - intros self w. unfold uninstall, install, after, modify.
    erewrite bind_Return by reflexivity. simpl. rewrite Nat.eqb_refl.
    f_equal. by destruct w.
  - intros self w H. unfold uninstall.
    erewrite bind_Return by reflexivity. by rewrite list_remove_first_None.
Qed.

Lemma X3_uninstall_undoes_install_witness :
  uninstall 0 example_world
  = (Raise (ValueError "list.remove(x): x not in list"), example_world).
Proof.
  apply (proj2 X3_uninstall_undoes_install 0%nat example_world).
  vm_compute. apply not_elem_of_nil.
Defined.

(** ** [auto_register], module by module *)

#[global] Instance registry_only_preorder : PreOrder registry_only.
Proof.
  split.
  - intros w. by repeat split.
  - intros w1 w2 w3 (A1 & A2 & A3 & A4 & A5 & A6 & A7 & A8 & A9)
      (B1 & B2 & B3 & B4 & B5 & B6 & B7 & B8 & B9).
    repeat split; congruence.
Qed.

Lemma wanted_cons filter x mods filename :
  wanted filter (x :: mods) filename
  ↔ wanted filter [x] filename ∨ wanted filter mods filename.
Proof.
  unfold wanted. split.
  - intros (n & md & m & Hin & H). apply elem_of_cons in Hin as [<- | Hin].
    + left. exists n, md, m. split; [apply list_elem_of_here | done].
    + right. by exists n, md, m.
  - intros [(n & md & m & Hin & H) | (n & md & m & Hin & H)];
      exists n, md, m; (split; [| done]).
    + apply list_elem_of_singleton in Hin as ->. apply list_elem_of_here.
    + by apply list_elem_of_further.
Qed.

Lemma wanted_nil filter filename : ¬ wanted filter [] filename.
Proof. intros (n & md & m & Hin & _). by apply elem_of_nil in Hin. Qed.

Lemma wanted_singleton filter name module filename :
  wanted filter [(name, module)] filename
  ↔ ∃ module_name,
      mod_name module = Some module_name
      ∧ mod_file module = Some filename
      ∧ filter filename = true.
Proof.
  unfold wanted. split.
  - intros (n & md & m & Hin & H).
    apply list_elem_of_singleton in Hin. injection Hin as -> ->. by exists m.
  - intros (m & H). exists name, module, m.
    split; [apply list_elem_of_here | done].
Qed.

Lemma tracked_grow filename w w' :
  tables_grow w w' → tracked filename w → tracked filename w'.
Proof.
  intros (P & C & _) [[e He] | [cf Hcf]].
  - left. exists e. by apply P.
  - right. exists cf. by apply C.
Qed.

(** One round of the loop of [auto_register]. *)
Lemma prep_step filter name module w :
  ∃ o w',
    prep filter (mod_name module) (mod_file module) w = (o, w')
    ∧ registry_only w w'
    ∧ tables_grow w w'
    ∧ (∀ f, precache (registry w') !! f ≠ precache (registry w) !! f →
            wanted filter [(name, module)] f)
    ∧ (∀ f, ¬ tracked f w → w_files w !! f = None → ¬ tracked f w')
    ∧ match o with
      | Return _ => ∀ f, wanted filter [(name, module)] f → tracked f w'
      | Raise e =>
        ∃ f, e = read_error w f ∧ wanted filter [(name, module)] f
             ∧ ¬ tracked f w ∧ w_files w !! f = None
      | OutOfFuel => False
      end
    ∧ ((∃ f, wanted filter [(name, module)] f ∧ ¬ tracked f w
             ∧ w_files w !! f = None) →
       ∃ e, o = Raise e).
Proof.
  assert ((∀ f, ¬ wanted filter [(name, module)] f) →
          ∃ o w',
            (Return (), w) = (o, w')
            ∧ registry_only w w'
            ∧ tables_grow w w'
            ∧ (∀ f, precache (registry w') !! f ≠ precache (registry w) !! f →
                    wanted filter [(name, module)] f)
            ∧ (∀ f, ¬ tracked f w → w_files w !! f = None → ¬ tracked f w')
            ∧ match o with
              | Return _ => ∀ f, wanted filter [(name, module)] f → tracked f w'
              | Raise e =>
                ∃ f, e = read_error w f ∧ wanted filter [(name, module)] f
                     ∧ ¬ tracked f w ∧ w_files w !! f = None
              | OutOfFuel => False
              end
            ∧ ((∃ f, wanted filter [(name, module)] f ∧ ¬ tracked f w
                     ∧ w_files w !! f = None) →
               ∃ e, o = Raise e)) as Hskip.
  { intros Hno. exists (Return ()), w. split_and!; try done.
    - intros f' H. by destruct (Hno f').
    - intros (f' & H & _). by destruct (Hno f'). }
  unfold prep.
  destruct (mod_file module) as [f|] eqn:Hf.
  2: { apply Hskip. intros f'. rewrite wanted_singleton, Hf.
       intros (m & _ & H & _). congruence. }
  destruct (mod_name module) as [m|] eqn:Hm.
  2: { apply Hskip. intros f'. rewrite wanted_singleton, Hm.
       intros (m & H & _). congruence. }
  destruct (filter f) eqn:Hfilter.
  2: { apply Hskip. intros f'. rewrite wanted_singleton, Hf.
       intros (m' & _ & H & H'). congruence. }
  clear Hskip.
  assert (∀ f', wanted filter [(name, module)] f' ↔ f' = f) as Hw.
  { intros f'. rewrite wanted_singleton. split.
    - intros (m' & _ & H & _). congruence.
    - intros ->. by exists m. }
  pose proof (prepare_grow m f w) as Hgrow. unfold after in Hgrow.
  destruct (contains (precache (registry w)) f) eqn:Hp;
    [| destruct (contains (cache (registry w)) f) eqn:Hc;
       [| destruct (w_files w !! f) as [[text mtime]|] eqn:Hfile]].
  - rewrite prepare_present in * by (by left).
    eexists _, _. split; [reflexivity |]. split_and!; try done.
    + intros f' H. apply Hw in H as ->. apply tracked_contains. by left.
    + intros (f' & H & Hn & _). apply Hw in H as ->.
      destruct Hn. apply tracked_contains. by left.
  - rewrite prepare_present in * by (by right).
    eexists _, _. split; [reflexivity |]. split_and!; try done.
    + intros f' H. apply Hw in H as ->. apply tracked_contains. by right.
    + intros (f' & H & Hn & _). apply Hw in H as ->.
      destruct Hn. apply tracked_contains. by right.
  - rewrite (prepare_readable _ _ text mtime) in * by done.
    eexists _, _. split; [reflexivity |]. split_and!; try done.
    + intros f' H. apply Hw. simpl in H.
      destruct (decide (f = f')) as [-> | Hne]; [done |].
      by rewrite lookup_insert_ne in H.
    + intros f' Hn Hnone [[e He] | Hcf]; simpl in *.
      * destruct (decide (f = f')) as [-> | Hne]; [congruence |].
        rewrite lookup_insert_ne in He by done. apply Hn. left. by exists e.
      * apply Hn. by right.
    + intros f' H. apply Hw in H as ->. left. simpl.
      rewrite lookup_insert_eq. by eexists.
    + intros (f' & H & _ & Hnone). apply Hw in H as ->. congruence.
  - rewrite prepare_unreadable in * by done.
    eexists _, _. split; [reflexivity |]. split_and!; try done.
    + exists f. split_and!; try done; [by apply Hw |].
      by apply untracked_contains.
    + intros _. by eexists.
Qed.

(** The whole loop of [auto_register]. *)
Lemma prep_loop filter mods w :
  ∃ o w',
    for_each mods
      (λ '(name, module), prep filter (mod_name module) (mod_file module)) w
    = (o, w')
    ∧ registry_only w w'
    ∧ tables_grow w w'
    ∧ (∀ f, precache (registry w') !! f ≠ precache (registry w) !! f →
            wanted filter mods f)
    ∧ match o with
      | Return _ => ∀ f, wanted filter mods f → tracked f w'
      | Raise e =>
        ∃ f, e = read_error w f ∧ wanted filter mods f
             ∧ ¬ tracked f w ∧ w_files w !! f = None
      | OutOfFuel => False
      end
    ∧ ((∃ f, wanted filter mods f ∧ ¬ tracked f w ∧ w_files w !! f = None) →
       ∃ e, o = Raise e).
Proof.
  revert w. induction mods as [|[name module] mods IH]; intros w.
  { exists (Return ()), w. split_and!; try done.
    - intros f H. by apply wanted_nil in H.
    - intros (f & H & _). by apply wanted_nil in H. }
  destruct (prep_step filter name module w)
    as (o1 & w1 & E1 & F1 & G1 & Ch1 & Un1 & Out1 & Must1).
  simpl. unfold mbind, Py_bind. rewrite E1.
  destruct o1 as [[]|e|]; [| | done].
  - destruct (IH w1) as (o & w' & E & F & G & Ch & Out & Must).
    exists o, w'. split; [done |].
    split; [by etrans |]. split; [by etrans |].
    assert (w_files w1 = w_files w) as Hfiles by apply F1.
    split_and!.
    + intros f H. apply wanted_cons.
      destruct (decide (precache (registry w1) !! f = precache (registry w) !! f))
        as [Heq | Hne].
      * right. apply Ch. congruence.
      * left. by apply Ch1.
    + destruct o as [[]|e|]; [| | done].
      * intros f H. apply wanted_cons in H as [H | H]; [| by apply Out].
        apply (tracked_grow f w1); [done | by apply Out1].
      * destruct Out as (f & -> & H & Hn & Hnone). exists f.
        split_and!.
        -- unfold read_error.
           by replace (w_undecodable w1) with (w_undecodable w) by (symmetry; apply F1).
        -- apply wanted_cons; by right.
        -- intros Ht. apply Hn. by apply (tracked_grow f w).
        -- congruence.
    + intros (f & H & Hn & Hnone). apply wanted_cons in H as [H | H].
      * destruct Must1 as [e He]; [by exists f | discriminate].
      * apply Must. exists f. split_and!; [done | by apply Un1 | congruence].
  - exists (Raise e), w1. split_and!; try done.
    + intros f H. apply wanted_cons. left. by apply Ch1.
    + destruct Out1 as (f & -> & H & Hn & Hnone). exists f.
      split_and!; [done | apply wanted_cons; by left | done | done].
    + intros _. by eexists.
Qed.

Lemma auto_register_unfold filter w :
  ∃ o w1,
    for_each (sys_modules w)
      (λ '(name, module), prep filter (mod_name module) (mod_file module)) w
    = (o, w1)
    ∧ auto_register filter w
      = match o with
        | Return _ =>
          (Return (length (w_sniffers w1)),
           set_meta_path (length (w_sniffers w1) :: sys_meta_path w1)
             (set_sniffers (w_sniffers w1 ++ [ImportSniffer_init (Prep filter)]) w1))
        | Raise e => (Raise e, w1)
        | OutOfFuel => (OutOfFuel, w1)
        end.
Proof.
  destruct (for_each (sys_modules w)
              (λ '(name, module), prep filter (mod_name module) (mod_file module)) w)
    as [o w1] eqn:E.
  exists o, w1. split; [done |].
  unfold auto_register. erewrite bind_Return by reflexivity.
  unfold mbind at 1, Py_bind at 1. rewrite E.
  by destruct o as [[]|e|].
Qed.

(** X4: when [auto_register] returns, the file of every loaded module that
    has a name and a file accepted by the filter is in the precache or in
    the cache. *)
Theorem X4_auto_register_tracks_every_accepted_module
    (filter : string → bool) (w : World) (sniffer : nat) (w' : World)
    (filename : string) :
  auto_register filter w = (Return sniffer, w') →
  wanted filter (sys_modules w) filename →
  tracked filename w'.
Proof.
  intros E H.
  destruct (auto_register_unfold filter w) as (o & w1 & E1 & E2).
  destruct (prep_loop filter (sys_modules w) w)
    as (o' & w1' & E1' & _ & _ & _ & Out & _).
  rewrite E1 in E1'. injection E1' as <- <-.
  rewrite E2 in E. destruct o as [[]|e|]; [| discriminate | discriminate].
  injection E as _ <-. by apply Out.
Qed.

Lemma X4_auto_register_tracks_every_accepted_module_witness :
  tracked "a.py" (after (auto_register not_b) two_modules_world).
Proof.
  apply (X4_auto_register_tracks_every_accepted_module
           not_b two_modules_world 0).
  - vm_compute. reflexivity.
  - exists "A"%string, {| mod_name := Some "A"%string; mod_file := Some "a.py"%string |},
      "A"%string.
    split_and!; try reflexivity.
    apply list_elem_of_further, list_elem_of_here.
Defined.

(** X5: however [auto_register] ends, the only precache entries it adds or
    changes are for files of loaded modules that have a name and a file
    accepted by the filter; and it builds no CodeFile. *)
Theorem X5_auto_register_touches_accepted_files_only
    (filter : string → bool) (w : World) (o : Outcome nat) (w' : World) :
  auto_register filter w = (o, w') →
  (∀ filename,
     precache (registry w') !! filename ≠ precache (registry w) !! filename →
     wanted filter (sys_modules w) filename)
  ∧ w_codefiles w' = w_codefiles w.
Proof.
  intros E.
  destruct (auto_register_unfold filter w) as (o1 & w1 & E1 & E2).
  destruct (prep_loop filter (sys_modules w) w)
    as (o' & w1' & E1' & F & _ & Ch & _ & _).
  rewrite E1 in E1'. injection E1' as <- <-.
  assert (precache (registry w') = precache (registry w1)
          ∧ w_codefiles w' = w_codefiles w1) as [Hp Hc].
  { rewrite E2 in E. destruct o1 as [[]|e|]; by injection E as <- <-. }
  rewrite Hp, Hc. split; [exact Ch | apply F].
Qed.

Lemma X5_auto_register_touches_accepted_files_only_witness :
  (∀ filename,
     precache (registry (after (auto_register not_b) two_modules_world)) !! filename
     ≠ precache (registry two_modules_world) !! filename →
     wanted not_b (sys_modules two_modules_world) filename)
  ∧ w_codefiles (after (auto_register not_b) two_modules_world)
    = w_codefiles two_modules_world.
Proof.
  apply (X5_auto_register_touches_accepted_files_only
           not_b two_modules_world (Return 0%nat)).
  vm_compute. reflexivity.
Defined.



(** ** One sniffer on the path *)

(** With the flag of the only sniffer of the path set, [find_spec] calls it
    back in vain and ends as the import machinery decides. *)
Lemma find_spec_single_sniffer fuel self name path w :
  sys_meta_path w = [self] →
  is_working self w = true →
  find_spec (find_module (S fuel)) name path w
  = (match res_outcome (importlib_find_spec w name) with
     | SpecFound ms => Return (Some ms)
     | SpecNone => Return None
     | SpecRaises e => Raise e
     end, w).
Proof.
  intros Hmp Hflag. unfold find_spec. erewrite bind_Return by reflexivity.
  destruct (for_each_invariant (λ w', w' = w)
              (res_queries (importlib_find_spec w name))
              (λ q, mp ← read sys_meta_path;
                    for_each mp (λ finder,
                      find_module (S fuel) finder q path ;; mret ())))
    with (w := w) as (w3 & E3 & ->); [| done |].
  - intros q wq ->. exists w. split; [| done].
    erewrite bind_Return by reflexivity. rewrite Hmp. simpl.
    erewrite bind_Return; [| erewrite bind_Return; [reflexivity |]].
    + reflexivity.
    + by apply find_module_working.
  - erewrite bind_Return by exact E3.
    by destruct (res_outcome (importlib_find_spec w name)).
Qed.

Lemma reportable_Some outcome name origin :
  reportable outcome = Some (name, origin) →
  ∃ ms, outcome = SpecFound ms
        ∧ isinstance_SourceFileLoader (ms_loader ms) = true
        ∧ ms_name ms = Some name
        ∧ ms_origin ms = Some origin.
Proof.
  destruct outcome as [ms| |e]; simpl; [| done | done].
  destruct (isinstance_SourceFileLoader (ms_loader ms)) eqn:Hl; [| done].
  destruct (ms_name ms) as [n|] eqn:Hn; [| done].
  destruct (ms_origin ms) as [og|] eqn:Ho; [| done].
  intros [= -> ->]. by exists ms.
Qed.

(** X7: a sniffer installed by [auto_register], alone on the path and idle,
    is asked about a module that [find_spec] locates in a source file
    accepted by the filter, not tracked yet and readable.  [find_module]
    returns [None]; the file's text and modification time are now in the
    precache under the name of the spec; the cache, the flags and the
    log are as before. *)
Theorem X7_sniffer_snapshots_an_imported_source_file
    (fuel self : nat) (spec : string) (path : option (list string))
    (sn : ImportSniffer) (filter : string → bool)
    (name origin text : string) (mtime : Z) (w : World) :
  w_sniffers w !! self = Some sn →
  working sn = false →
  report sn = Prep filter →
  sys_meta_path w = [self] →
  reportable (res_outcome (importlib_find_spec w spec)) = Some (name, origin) →
  filter origin = true →
  ¬ tracked origin w →
  w_files w !! origin = Some (text, mtime) →
  ∃ w',
    find_module (S (S fuel)) self spec path w = (Return None, w')
    ∧ precache (registry w')
      = <[origin := (name, text, mtime)]> (precache (registry w))
    ∧ cache (registry w') = cache (registry w)
    ∧ w_sniffers w' = w_sniffers w
    ∧ w_logged w' = w_logged w.
Proof.
  intros Hsn Hw Hrep Hmp Hout Hfilter Hnot Hfile.
  apply reportable_Some in Hout as (ms & Hres & Hl & Hn & Ho).
  rewrite (find_module_unfold _ _ _ _ sn) by done.
  rewrite (find_spec_single_sniffer _ self);
    [| exact Hmp | by apply (world_resolving_working _ _ sn)].
  change (importlib_find_spec (world_resolving self spec w))
    with (importlib_find_spec w). rewrite Hres.
  unfold report_source_spec. rewrite Hl, Hn, Ho, Hrep.
  unfold try_except, call_report. erewrite bind_Return by reflexivity.
  unfold prep. rewrite Hfilter.
  rewrite (prepare_readable _ _ text mtime);
    [| apply contains_false; simpl | apply contains_false; simpl | done].
  - eexists. split; [reflexivity |]. simpl.
    split_and!; try done. by apply (alter_working_restore _ _ sn).
  - destruct (precache (registry w) !! origin) eqn:E; [| done].
    destruct Hnot. left. by eexists.
  - destruct (cache (registry w) !! origin) eqn:E; [| done].
    destruct Hnot. right. by eexists.
Qed.

Lemma X7_sniffer_snapshots_an_imported_source_file_witness :
  ∃ w',
    find_module 2 0 "lib" None sniffing_world = (Return None, w')
    ∧ precache (registry w')
      = <["lib.py"%string := ("lib"%string, "x = 1"%string, 50%Z)]>
          (precache (registry sniffing_world))
    ∧ cache (registry w') = cache (registry sniffing_world)
    ∧ w_sniffers w' = w_sniffers sniffing_world
    ∧ w_logged w' = w_logged sniffing_world.
Proof.
  apply (X7_sniffer_snapshots_an_imported_source_file 0 0 "lib" None
           (ImportSniffer_init (Prep (λ _, true))) (λ _, true));
    try reflexivity.
  intros [[x H] | [x H]]; vm_compute in H; discriminate.
Defined.

(** X8: a sniffer alone on the path and idle is asked about a module whose
    file, a source file accepted by the filter, is tracked nowhere and
    cannot be read.  The error of [prepare], [OSError] for a path that does
    not open and [UnicodeDecodeError] for bytes that do not decode, does
    not reach the import: [find_module] returns [None], the error is
    appended to the log with the name of the spec, and the registry and
    the flags are as before. *)
Theorem X8_sniffer_logs_an_unreadable_source_file
    (fuel self : nat) (spec : string) (path : option (list string))
    (sn : ImportSniffer) (filter : string → bool)
    (name origin : string) (w : World) :
  w_sniffers w !! self = Some sn →
  working sn = false →
  report sn = Prep filter →
  sys_meta_path w = [self] →
  reportable (res_outcome (importlib_find_spec w spec)) = Some (name, origin) →
  filter origin = true →
  ¬ tracked origin w →
  w_files w !! origin = None →
  ∃ w',
    find_module (S (S fuel)) self spec path w = (Return None, w')
    ∧ registry w' = registry w
    ∧ w_sniffers w' = w_sniffers w
    ∧ w_logged w'
      = w_logged w
        ++ [(("jurigged: Error processing spec " +:+ name)%string,
             read_error w origin)]
    ∧ (origin ∉ w_undecodable w →
       w_logged w'
       = w_logged w
         ++ [(("jurigged: Error processing spec " +:+ name)%string,
              OSError origin)]).
Proof.
  intros Hsn Hw Hrep Hmp Hout Hfilter Hnot Hfile.
  apply reportable_Some in Hout as (ms & Hres & Hl & Hn & Ho).
  rewrite (find_module_unfold _ _ _ _ sn) by done.
  rewrite (find_spec_single_sniffer _ self);
    [| exact Hmp | by apply (world_resolving_working _ _ sn)].
  change (importlib_find_spec (world_resolving self spec w))
    with (importlib_find_spec w). rewrite Hres.
  unfold report_source_spec. rewrite Hl, Hn, Ho, Hrep.
  unfold try_except, call_report. erewrite bind_Return by reflexivity.
  unfold prep. rewrite Hfilter.
  rewrite prepare_unreadable;
    [| apply contains_false; simpl | apply contains_false; simpl | done].
  - eexists. split; [reflexivity |]. simpl.
    split_and!; try done; [by apply (alter_working_restore _ _ sn) |].
    intros Hdec. unfold read_error. by rewrite decide_False.
  - destruct (precache (registry w) !! origin) eqn:E; [| done].
    destruct Hnot. left. by eexists.
  - destruct (cache (registry w) !! origin) eqn:E; [| done].
    destruct Hnot. right. by eexists.
Qed.

Lemma X8_sniffer_logs_an_unreadable_source_file_witness :
  ∃ w',
    find_module 2 0 "ghost" None sniffing_world = (Return None, w')
    ∧ registry w' = registry sniffing_world
    ∧ w_sniffers w' = w_sniffers sniffing_world
    ∧ w_logged w'
      = w_logged sniffing_world
        ++ [("jurigged: Error processing spec ghost"%string, OSError "ghost.py")].
Proof.
  destruct (X8_sniffer_logs_an_unreadable_source_file 0 0 "ghost" None
              (ImportSniffer_init (Prep (λ _, true))) (λ _, true)
              "ghost" "ghost.py" sniffing_world)
    as (w' & E & Hr & Hs & _ & Hl); try reflexivity.
  - intros [[x H] | [x H]]; vm_compute in H; discriminate.
  - exists w'. split_and!; [exact E | exact Hr | exact Hs |].
    apply Hl. change (w_undecodable sniffing_world) with (∅ : gset string).
    apply not_elem_of_empty.
Defined.

Lemma report_source_spec_unreportable self rep mspec w :
  reportable (match mspec with
              | Some ms => SpecFound ms
              | None => SpecNone
              end) = None →
  report_source_spec self rep mspec w = (Return (), w).
Proof.
  unfold report_source_spec. destruct mspec as [ms|]; simpl; [| done].
  destruct (isinstance_SourceFileLoader (ms_loader ms)); [| done].
  by destruct (ms_name ms), (ms_origin ms).
Qed.

Lemma world_resolving_done self spec sn (c : list Call) w :
  w_sniffers w !! self = Some sn →
  working sn = false →
  set_sniffers
    (alter (λ s, {| working := false; report := report s |}) self
       (w_sniffers (world_resolving self spec w)))
    (set_calls c (world_resolving self spec w))
  = set_calls c w.
Proof.
  intros Hsn Hw. unfold world_resolving. simpl.
  rewrite (alter_working_restore _ _ sn) by done. by destruct w.
Qed.

(** X9: a sniffer alone on the path and idle leaves the world as it found
    it, but for the record of its calls, when there is nothing to prepare:
    when [find_spec] returns [None] or a spec that has no
    [SourceFileLoader], no name or no origin, the callback is not called;
    when the callback of [auto_register] is called with an origin that the
    filter rejects, [prepare] is not called. *)
Theorem X9_sniffer_leaves_other_modules_alone
    (fuel self : nat) (spec : string) (path : option (list string))
    (sn : ImportSniffer) (w : World) :
  w_sniffers w !! self = Some sn →
  working sn = false →
  sys_meta_path w = [self] →
  (reportable (res_outcome (importlib_find_spec w spec)) = None →
   (∀ e, res_outcome (importlib_find_spec w spec) ≠ SpecRaises e) →
   find_module (S (S fuel)) self spec path w
   = (Return None, set_calls (w_calls w ++ [CallFindSpec self spec]) w))
  ∧ (∀ filter name origin,
       report sn = Prep filter →
       reportable (res_outcome (importlib_find_spec w spec)) = Some (name, origin) →
       filter origin = false →
       find_module (S (S fuel)) self spec path w
       = (Return None,
          set_calls
            (w_calls w ++ [CallFindSpec self spec; CallReport self name origin])
            w)).
Proof.
  intros Hsn Hw Hmp.
  assert (find_module (S (S fuel)) self spec path w
          = match res_outcome (importlib_find_spec w spec) with
            | SpecFound ms =>
              match report_source_spec self (report sn) (Some ms)
                      (world_resolving self spec w) with
              | (Return _, w4) =>
                (Return None,
                 set_sniffers
                   (alter (λ s, {| working := false; report := report s |}) self
                      (w_sniffers w4)) w4)
              | (Raise e, w4) => (Raise e, w4)
              | (OutOfFuel, w4) => (OutOfFuel, w4)
              end
            | SpecNone =>
              (Return None,
               set_sniffers
                 (alter (λ s, {| working := false; report := report s |}) self
                    (w_sniffers (world_resolving self spec w)))
                 (world_resolving self spec w))
            | SpecRaises e => (Raise e, world_resolving self spec w)
            end) as ->.
  { rewrite (find_module_unfold _ _ _ _ sn) by done.
    rewrite (find_spec_single_sniffer _ self);
      [| exact Hmp | by apply (world_resolving_working _ _ sn)].
    change (importlib_find_spec (world_resolving self spec w))
      with (importlib_find_spec w).
    by destruct (res_outcome (importlib_find_spec w spec)). }
  pose proof (world_resolving_done self spec sn
                (w_calls w ++ [CallFindSpec self spec]) w Hsn Hw) as Hdone.
  split.
  - intros Hnone Hne.
    destruct (res_outcome (importlib_find_spec w spec)) as [ms| |e].
    + rewrite (report_source_spec_unreportable _ _ (Some ms)) by done.
      by rewrite <- Hdone.
    + by rewrite <- Hdone.
    + by destruct (Hne e).
  - intros filter name origin Hrep Hout Hfilter.
    apply reportable_Some in Hout as (ms & -> & Hl & Hn & Ho).
    unfold report_source_spec. rewrite Hl, Hn, Ho, Hrep.
    unfold try_except, call_report. erewrite bind_Return by reflexivity.
    unfold prep. rewrite Hfilter. simpl.
    rewrite (alter_working_restore _ _ sn) by done.
    rewrite <- app_assoc. by destruct w.
Qed.

Lemma X9_sniffer_leaves_other_modules_alone_witness :
  find_module 2 0 "sys" None (set_find_spec builtin_resolve sniffing_world)
  = (Return None,
     set_calls
       (w_calls (set_find_spec builtin_resolve sniffing_world)
        ++ [CallFindSpec 0 "sys"])
       (set_find_spec builtin_resolve sniffing_world)).
Proof.
  apply (proj1 (X9_sniffer_leaves_other_modules_alone 0 0 "sys" None
                  (ImportSniffer_init (Prep (λ _, true)))
                  (set_find_spec builtin_resolve sniffing_world)
                  eq_refl eq_refl eq_refl)).
  - reflexivity.
  - intros e. vm_compute. discriminate.
Defined.

(** ** Promotion *)

#[global] Instance channels_only_preorder : PreOrder channels_only.
Proof.
  split.
  - intros w. by repeat split.
  - intros w1 w2 w3 (A1 & A2 & A3 & A4 & A5 & A6 & A7)
      (B1 & B2 & B3 & B4 & B5 & B6 & B7).
    repeat split; congruence.
Qed.

Lemma cf_call_channels l ev : total channels_only (cf_call l ev).
Proof.
  assert (∀ observer, total channels_only (observe observer ev)) as Hobs.
  { intros observer. by apply (total_modify channels_only). }
  destruct l; simpl.
  - apply Hobs.
  - apply (total_bind channels_only); [apply (total_read channels_only) |].
    intros r. destruct (_log r); [apply Hobs | apply (total_mret channels_only)].
  - apply (total_bind channels_only); [apply (total_read channels_only) |].
    intros r. apply (total_bind channels_only).
    + apply (total_bind channels_only);
        [| intros _; apply (total_mret channels_only)].
      apply (total_for_each channels_only). intros observer. apply Hobs.
    + intros es. by apply (total_modify channels_only).
Qed.

Lemma cf_activity_register_channels cf l w :
  ∃ w', cf_activity_register cf l w = (Return (), w') ∧ channels_only w w'.
Proof.
  unfold cf_activity_register. erewrite bind_Return by reflexivity.
  destruct (w_codefiles w !! cf) as [o|] eqn:Ho; [| by exists w].
  destruct (total_for_each channels_only
              (default [] (history (cf_activity o))) (λ ev, cf_call l ev)
              (λ ev, cf_call_channels l ev) w)
    as ([] & w1 & E1 & F1).
  unfold EventSource_register.
  erewrite bind_Return; [| erewrite bind_Return; [reflexivity | exact E1]].
  eexists. split; [reflexivity |].
  etrans; [exact F1 |].
  destruct F1 as (_ & _ & _ & _ & _ & _ & Hst).
  repeat split. simpl.
  rewrite list_fmap_insert. apply list_insert_id.
  rewrite Hst, list_lookup_fmap, Ho. done.
Qed.

(** X10: when [get] promotes a path, the CodeFile it returns is a new
    object built from the source text that [prepare] stored, whatever the
    file on disk holds by now, and bound to the module that is loaded under
    the stored name; its definitions are those [discover] finds in that
    text.  No file is read, and [find] on the path answers from these
    definitions. *)
Theorem X10_promotion_builds_from_the_snapshot
    (w : World) (filename module_name source : string) (mtime : Z)
    (module : PyModule) :
  cache (registry w) !! filename = None →
  precache (registry w) !! filename = Some (module_name, source, mtime) →
  lookup_module module_name (sys_modules w) = Some module →
  ∃ w' o,
    get filename w = (Return (Some (length (w_codefiles w))), w')
    ∧ length (w_codefiles w') = S (length (w_codefiles w))
    ∧ w_codefiles w' !! length (w_codefiles w) = Some o
    ∧ cf_filename o = filename
    ∧ cf_source o = source
    ∧ cf_module o = Some module
    ∧ defnmap o = (codefile_discover w filename source module).1
    ∧ w_calls w' = w_calls w
    ∧ w_files w' = w_files w
    ∧ ∀ lineno,
        find filename lineno w
        = (Return (Some (length (w_codefiles w)),
                   (codefile_discover w filename source module).1 !! lineno),
           w').
Proof.
  intros Hc Hp Hm.
  set (obj := {| cf_filename := filename; cf_source := source;
                 cf_module := Some module;
                 defnmap := (codefile_discover w filename source module).1;
                 cf_activity := (codefile_discover w filename source module).2 |}).
  set (w1 := set_codefiles (w_codefiles w ++ [obj]) w).
  destruct (cf_activity_register_channels (length (w_codefiles w))
              CfRegistryLog w1) as (w2 & E2 & F2).
  destruct (cf_activity_register_channels (length (w_codefiles w))
              CfRegistryActivityEmit w2) as (w3 & E3 & F3).
  assert (channels_only w1 w3) as (Hf & _ & _ & Hcalls & _ & _ & Hst)
    by (by etrans).
  assert (∃ o, w_codefiles w3 !! length (w_codefiles w) = Some o
               ∧ cf_static o = cf_static obj) as (o & Ho & Hso).
  { apply (f_equal (λ l, l !! length (w_codefiles w))) in Hst.
    rewrite !list_lookup_fmap in Hst. unfold w1 in Hst. simpl in Hst.
    rewrite lookup_app_r, Nat.sub_diag in Hst by lia. simpl in Hst.
    destruct (w_codefiles w3 !! length (w_codefiles w)) as [o|]; [| done].
    exists o. split; [done |]. simpl in Hst. congruence. }
  injection Hso as H1 H2 H3 H4.
  assert (length (w_codefiles w3) = S (length (w_codefiles w))) as Hlen.
  { apply (f_equal length) in Hst. rewrite !length_fmap in Hst.
    rewrite Hst. unfold w1. simpl. rewrite length_app. simpl. lia. }
  assert (get filename w
          = (Return (Some (length (w_codefiles w))),
             set_registry
               (set_cache (<[filename := length (w_codefiles w)]>
                             (cache (registry w3))) (registry w3)) w3)) as G.
  { unfold get.
    erewrite bind_Return by reflexivity. rewrite Hc, Hp.
    erewrite bind_Return by reflexivity. rewrite Hm.
    erewrite bind_Return by reflexivity.
    erewrite bind_Return by exact E2.
    erewrite bind_Return by exact E3.
    erewrite bind_Return by reflexivity. reflexivity. }
  eexists _, o. split; [exact G |].
  simpl. split_and!; try done.
  intros lineno. rewrite (find_present _ _ _ _ _ G). simpl.
  by rewrite Ho, <- H4.
Qed.

Lemma X10_promotion_builds_from_the_snapshot_witness :
  ∃ w' o,
    get "app.py" edited_world = (Return (Some (length (w_codefiles edited_world))), w')
    ∧ length (w_codefiles w') = S (length (w_codefiles edited_world))
    ∧ w_codefiles w' !! length (w_codefiles edited_world) = Some o
    ∧ cf_filename o = "app.py"%string
    ∧ cf_source o = "def main(): pass"%string
    ∧ cf_module o = Some example_module
    ∧ defnmap o
      = (codefile_discover edited_world "app.py" "def main(): pass" example_module).1
    ∧ w_calls w' = w_calls edited_world
    ∧ w_files w' = w_files edited_world
    ∧ ∀ lineno,
        find "app.py" lineno edited_world
        = (Return (Some (length (w_codefiles edited_world)),
                   (codefile_discover edited_world "app.py" "def main(): pass"
                      example_module).1 !! lineno),
           w').
Proof.
  apply (X10_promotion_builds_from_the_snapshot edited_world
           "app.py" "app" "def main(): pass" 100%Z example_module).
  - reflexivity.
  - vm_compute. reflexivity.
  - reflexivity.
Defined.

Lemma get_Some_cached filename cf w w' :
  get filename w = (Return (Some cf), w') →
  cache (registry w') !! filename = Some cf.
Proof.
  intros E. destruct (cache (registry w) !! filename) as [cf0|] eqn:Hc.
  - rewrite (get_cached _ cf0) in E by done. by injection E as <- <-.
  - destruct (get_promotion_inv _ _ _ _ Hc E) as (C & _).
    by rewrite C, lookup_insert_eq.
Qed.

(** X11: once [find_function] has returned a CodeFile for a function, the
    file of the function is cached under that CodeFile for good: after any
    further operations, [get] on that file and [find_function] on that
    function return the same reference. *)
Theorem X11_find_function_keeps_its_codefile
    (fn : PyObject) (cf : nat) (defn : option Defn) (w w1 : World)
    (ops : list Op) :
  find_function fn w = (Return (Some cf, defn), w1) →
  ∃ f,
    as_FunctionType fn = Some f
    ∧ get (co_filename f) (run_ops ops w1) = (Return (Some cf), run_ops ops w1)
    ∧ ∃ defn' w2,
        find_function fn (run_ops ops w1) = (Return (Some cf, defn'), w2).
Proof.
  intros E. unfold find_function in *.
  destruct (as_FunctionType fn) as [f|]; [| discriminate].
  exists f. split; [done |].
  assert (cache (registry w1) !! co_filename f = Some cf) as Hc1.
  { unfold mbind, Py_bind in E.
    destruct (prepare (fn_module f) (co_filename f) w) as [[[]|e|] w0];
      [| discriminate | discriminate].
    unfold find, mbind, Py_bind in E.
    destruct (get (co_filename f) w0) as [[[c|]|e|] w0'] eqn:G;
      try discriminate.
    unfold read in E. simpl in E. injection E as <- _ <-.
    by apply (get_Some_cached _ _ w0). }
  destruct (run_ops_grow ops w1) as (_ & C & _).
  set (wa := run_ops ops w1) in *.
  assert (cache (registry wa) !! co_filename f = Some cf) as Hca by by apply C.
  split; [by apply get_cached |].
  erewrite bind_Return.
  2: { apply prepare_present. right. apply contains_true. by eexists. }
  eexists _, _. apply find_present. by apply get_cached.
Qed.

Lemma X11_find_function_keeps_its_codefile_witness :
  ∃ f,
    as_FunctionType (VFunction example_function) = Some f
    ∧ get (co_filename f)
        (run_ops [EnvUnloadModule "app"; EnvRemoveFile "app.py"]
           (after (find_function (VFunction example_function)) example_world))
      = (Return (Some 0%nat),
         run_ops [EnvUnloadModule "app"; EnvRemoveFile "app.py"]
           (after (find_function (VFunction example_function)) example_world))
    ∧ ∃ defn' w2,
        find_function (VFunction example_function)
          (run_ops [EnvUnloadModule "app"; EnvRemoveFile "app.py"]
             (after (find_function (VFunction example_function)) example_world))
        = (Return (Some 0%nat, defn'), w2).
Proof.
  apply (X11_find_function_keeps_its_codefile
           (VFunction example_function) 0 (Some "main"%string) example_world).
  vm_compute. reflexivity.
Defined.

(** ** The history of precache events *)

#[global] Instance same_precache_log_preorder : PreOrder same_precache_log.
Proof.
  split.
  - by intros w.
  - intros w1 w2 w3 [A1 A2] [B1 B2]. split; congruence.
Qed.

#[global] Instance keeps_mirror_preorder : PreOrder keeps_mirror.
Proof.
  split.
  - intros w H. exact H.
  - intros w1 w2 w3 H12 H23 H. by apply H23, H12.
Qed.

Lemma same_precache_log_keeps w w' : same_precache_log w w' → keeps_mirror w w'.
Proof.
  intros [P H] (h & Hh & Hnd & Hiff). exists h.
  rewrite H, P. by split_and!.
Qed.

Ltac respects_log :=
  repeat first
    [ apply (respects_mret same_precache_log)
    | apply (respects_read same_precache_log)
    | apply (respects_raise same_precache_log)
    | apply (respects_modify same_precache_log); intros ?; done
    | apply (respects_bind same_precache_log); [| intros ?]
    | apply (respects_for_each same_precache_log); intros ?
    | match goal with
      | |- respects _ (match ?x with _ => _ end) => destruct x
      end ].

Lemma cf_call_log l ev : respects same_precache_log (cf_call l ev).
Proof.
  destruct l; unfold cf_call, Registry_log, activity_emit, EventSource_emit,
    observe; respects_log.
Qed.

Lemma get_log filename : respects same_precache_log (get filename).
Proof.
  unfold get, CodeFile_discover, cf_activity_register, EventSource_register.
  respects_log; try apply cf_call_log.
Qed.

Lemma keeps_of_log {A} (c : Py A) :
  respects same_precache_log c → respects keeps_mirror c.
Proof. apply respects_weaken, same_precache_log_keeps. Qed.

Lemma prepare_keeps module_name filename :
  respects keeps_mirror (prepare module_name filename).
Proof.
  intros w. unfold after.
  destruct (contains (precache (registry w)) filename) eqn:Hp.
  { rewrite prepare_present by (by left). by apply same_precache_log_keeps. }
  destruct (contains (cache (registry w)) filename) eqn:Hc.
  { rewrite prepare_present by (by right). by apply same_precache_log_keeps. }
  destruct (w_files w !! filename) as [[text mtime]|] eqn:Hf.
  2: { rewrite prepare_unreadable by done. by apply same_precache_log_keeps. }
  rewrite (prepare_readable _ _ text mtime) by done.
  apply contains_false in Hp.
  intros (h & Hh & Hnd & Hiff).
  exists (h ++ [PrecacheEvent module_name filename]). simpl. rewrite Hh.
  split_and!; [done | |].
  - apply NoDup_app. split_and!; [done | | apply NoDup_singleton].
    intros ev Hev Hin. apply list_elem_of_singleton in Hin as ->.
    apply Hiff in Hev as (m & f & t & mt & [= <- <-] & Hpf). congruence.
  - intros ev. rewrite elem_of_app, list_elem_of_singleton, Hiff. split.
    + intros [(m & f & t & mt & -> & Hpf) | ->].
      * exists m, f, t, mt. split; [done |].
        rewrite lookup_insert_ne; [done | congruence].
      * exists module_name, filename, text, mtime.
        by rewrite lookup_insert_eq.
    + intros (m & f & t & mt & -> & Hpf).
      destruct (decide (filename = f)) as [<- | Hne].
      * rewrite lookup_insert_eq in Hpf. injection Hpf as <- <- <-. by right.
      * rewrite lookup_insert_ne in Hpf by done. left. by exists m, f, t, mt.
Qed.

Lemma prep_keeps filter module_name filename :
  respects keeps_mirror (prep filter module_name filename).
Proof.
  unfold prep. destruct filename as [f|], module_name as [m|];
    try apply (respects_mret keeps_mirror).
  destruct (filter f); [apply prepare_keeps | apply (respects_mret keeps_mirror)].
Qed.

Lemma precache_activity_register_log observer :
  respects same_precache_log (precache_activity_register observer).
Proof.
  assert (∀ ev, total same_precache_log (observe observer ev)) as Hobs.
  { intros ev. by apply (total_modify same_precache_log). }
  intros w. unfold after, precache_activity_register, EventSource_register.
  erewrite bind_Return by reflexivity.
  destruct (total_for_each same_precache_log
              (default [] (history (precache_activity (registry w))))
              (λ ev, observe observer ev) Hobs w)
    as ([] & w1 & E1 & [P1 H1]).
  erewrite bind_Return; [| erewrite bind_Return; [reflexivity | exact E1]].
  by split.
Qed.

Lemma run_op_keeps op w : keeps_mirror w (run_op op w).
Proof.
  destruct op; simpl.
  - apply prepare_keeps.
  - apply keeps_of_log, get_log.
  - apply keeps_of_log. unfold find. respects_log; try apply get_log.
  - unfold find_function. destruct (as_FunctionType fn) as [f|];
      [| apply (respects_mret keeps_mirror)].
    apply (respects_bind keeps_mirror); [apply prepare_keeps | intros _].
    apply keeps_of_log. unfold find. respects_log; try apply get_log.
  - apply (respects_bind keeps_mirror); [apply (respects_read keeps_mirror) |].
    intros mods. apply (respects_bind keeps_mirror).
    { apply (respects_for_each keeps_mirror). intros [name module].
      apply prep_keeps. }
    intros _. apply keeps_of_log.
    unfold ImportSniffer_new, install. respects_log.
  - apply keeps_of_log. unfold set_logger. respects_log.
  - apply keeps_of_log, precache_activity_register_log.
  - apply keeps_of_log.
    unfold activity_register, EventSource_register, observe. respects_log.
  - apply (find_module_respects keeps_mirror (λ _, true)).
    + intros. apply keeps_of_log. unfold set_working. respects_log.
    + intros. apply keeps_of_log. unfold record_call. respects_log.
    + intros self rep name origin _.
      apply (respects_bind keeps_mirror).
      { apply keeps_of_log. unfold record_call. respects_log. }
      intros _. destruct rep as [filter | behaviour]; [apply prep_keeps |].
      apply keeps_of_log. respects_log.
    + intros. apply keeps_of_log. unfold log_error. respects_log.
    + intros; discriminate.
  - apply keeps_of_log. unfold uninstall. respects_log.
  - by apply same_precache_log_keeps.
  - by apply same_precache_log_keeps.
  - by apply same_precache_log_keeps.
  - by apply same_precache_log_keeps.
  - by apply same_precache_log_keeps.
  - by apply same_precache_log_keeps.
Qed.

(** X12: in every world reached from a fresh registry, the history that
    [precache_activity] retains lists the precache: it holds one event per
    precache entry and nothing else, each event carrying the module name
    and the path of its entry. *)
Theorem X12_precache_history_lists_the_precache
    (files : gmap string (string * Z)) (mods : list (string * PyModule))
    (resolve : string → Resolution)
    (discover : string → string → PyModule → gmap Z Defn * EventSource CfListener)
    (ops : list Op) :
  history_mirrors_precache (run_ops ops (World_init files mods resolve discover)).
Proof.
  assert (∀ w, keeps_mirror w (run_ops ops w)) as H.
  { induction ops as [|op ops IH]; intros w; simpl; [reflexivity |].
    etrans; [apply run_op_keeps | apply IH]. }
  apply H. exists []. simpl. split_and!; [done | apply NoDup_nil_2 |].
  intros ev. split.
  - intros Hin. by apply elem_of_nil in Hin.
  - intros (m & f & t & mt & _ & Hp). by rewrite lookup_empty in Hp.
Qed.

(** ** [_pad] *)

Lemma length_append (a b : string) :
  String.length (a +:+ b) = (String.length a + String.length b)%nat.
Proof. induction a as [|c a IH]; simpl; [done | by rewrite IH]. Qed.

Lemma length_str_repeat (s : string) (n : nat) :
  String.length (str_repeat s n) = (n * String.length s)%nat.
Proof.
  induction n as [|n IH]; simpl; [done |]. by rewrite length_append, IH.
Qed.

(** X13: the line [_pad] returns is exactly [total] characters long when
    the numbered text and its six characters of frame fit in [total]; when
    they do not, nothing is cut and no dash is appended, so the line is the
    numbered text plus six characters. *)
Theorem X13_pad_fills_the_line_to_total (num text : string) (total : Z) :
  Z.of_nat (String.length (_pad num text total))
  = Z.max total
      (Z.of_nat (String.length ("#" +:+ num +:+ ": " +:+ text)) + 6).
Proof.
  unfold _pad, str_mul.
  rewrite !length_append, length_str_repeat. simpl String.length. lia.
Qed.
